(** * kedro-azureml: lowering a Kedro pipeline to an Azure ML job graph

    A shallow embedding of [kedro_azureml/generator.py]
    (class [AzureMLPipelineGenerator]) and the properties of its name
    sanitizers, command builder, graph wiring and output resolution.

    Conventions of the model.
    - A Python [str] is a [string]; its characters stand for the code points
      U+0000..U+00FF, on which [str.lower] is the function [lower] below.
    - A Python [dict] keyed by strings is a [gmap string _]; assigning to a
      key that is already present replaces the value, as [<[k:=v]>] does.
    - A Python list, and a set that the code only iterates or tests for
      membership, is a [list] in iteration order.
    - An exception is a value of [exn]; code that may raise returns
      [result _]. *)

From Stdlib Require Import Ascii String NArith.
From stdpp Require Import gmap strings list.

(** ** Python strings *)

Module Py.

(** [c.lower()] for one code point below U+0100: the ASCII capitals and the
    Latin-1 capitals U+00C0..U+00DE (the multiplication sign U+00D7 apart)
    move up by 32, every other code point is unchanged. *)
Definition lower_char (c : ascii) : ascii :=
  let n := N_of_ascii c in
  if ((65 <=? n) && (n <=? 90)
      || (192 <=? n) && (n <=? 222) && negb (n =? 215))%N
  then ascii_of_N (n + 32)
  else c.

(** [s.lower()] *)
Fixpoint lower (s : string) : string :=
  match s with
  | EmptyString => EmptyString
  | String c s' => String (lower_char c) (lower s')
  end.

(** [s.replace(old, new)] for a pattern [old] of one character. *)
Fixpoint replace_char (old : ascii) (new : string) (s : string) : string :=
  match s with
  | EmptyString => EmptyString
  | String c s' =>
      if Ascii.eqb c old then new +:+ replace_char old new s'
      else String c (replace_char old new s')
  end.

(** The character class [[a-z0-9_]]. *)
Definition word_char (c : ascii) : bool :=
  let n := N_of_ascii c in
  ((97 <=? n) && (n <=? 122) || (48 <=? n) && (n <=? 57) || (n =? 95))%N.

(** [re.sub(r"[^a-z0-9_]", repl, s)] for a replacement [repl] without
    group references: every character outside the class is replaced. *)
Fixpoint re_sub_non_word (repl : string) (s : string) : string :=
  match s with
  | EmptyString => EmptyString
  | String c s' =>
      if word_char c then String c (re_sub_non_word repl s')
      else repl +:+ re_sub_non_word repl s'
  end.

(** [sep.join(parts)] *)
Definition join (sep : string) (parts : list string) : string :=
  String.concat sep parts.

(** [x in xs] for a list or set of strings. *)
Definition contains (xs : list string) (x : string) : bool :=
  bool_decide (x ∈ xs).

(** [next((x for x in xs if p(x)), None)] *)
Definition next_or_none {A} (p : A → bool) (xs : list A) : option A :=
  List.find p xs.

(** Truthiness of a list: the empty list is falsy. *)
Definition nonempty {A} (xs : list A) : bool :=
  match xs with
  | [] => false
  | _ :: _ => true
  end.

(** Truthiness of an optional string: [None] and the empty string are
    falsy. *)
Definition truthy (o : option string) : bool :=
  match o with
  | Some (String _ _) => true
  | _ => false
  end.

(** [a or b] for an optional string [a]: [a] when it is truthy, else [b]. *)
Definition or_else (a : option string) (b : string) : string :=
  match a with
  | Some s => if truthy a then s else b
  | None => b
  end.

(** The characters of [s] all satisfy [p]. *)
Fixpoint all_chars (p : ascii → bool) (s : string) : bool :=
  match s with
  | EmptyString => true
  | String c s' => p c && all_chars p s'
  end.


Inductive exn : Type :=
  | KeyError (key : string)
  | ValueError (msg : string).

Inductive result (A : Type) : Type :=
  | Ok (a : A)
  | Raise (e : exn).
Global Arguments Ok {A} a.
Global Arguments Raise {A} e.

(** Sequencing: the first exception raised ends the computation. *)
Global Instance result_ret : MRet result := λ A a, Ok a.
Global Instance result_bind : MBind result := λ A B k r,
  match r with
  | Ok a => k a
  | Raise e => Raise e
  end.

(** [{k(x): v(x) for x in xs}] and a loop of assignments [d[k] = v]: a key
    assigned twice keeps the value assigned last. *)
Definition dict_of_items {V} (items : list (string * V)) : gmap string V :=
  foldl (λ d kv, <[kv.1 := kv.2]> d) ∅ items.

(** [d[k]]: raises [KeyError] when the key is absent. *)
Definition getitem {V} (d : gmap string V) (k : string) : result V :=
  match d !! k with
  | Some v => Ok v
  | None => Raise (KeyError k)
  end.

End Py.

(** ** [AzureMLPipelineGenerator]: the name sanitizers *)

(** [_sanitize_param_name] (the method does not read [self]). *)
Definition _sanitize_param_name (param_name : string) : string :=
  Py.re_sub_non_word "_" (Py.lower param_name).

(** [_sanitize_azure_name] (the method does not read [self]). *)
Definition _sanitize_azure_name (name : string) : string :=
  Py.replace_char "." "__" (Py.lower name).


(** ** Kedro: nodes and pipelines

    What the generator reads of [kedro.pipeline.Node] and
    [kedro.pipeline.Pipeline]. *)

Module Node.
Record t : Type := {
  name : string;
  inputs : list string;
  outputs : list string;
}.
End Node.

Module Pipeline.
Record t : Type := {
  (** [pipeline.nodes], sorted topologically by Kedro *)
  nodes : list Node.t;
  (** [pipeline.node_dependencies[node]], in iteration order *)
  node_dependencies : Node.t → list Node.t;
  (** [pipeline.inputs()] *)
  inputs : list string;
  (** [pipeline.outputs()], in iteration order *)
  outputs : list string;
}.
End Pipeline.

(** ** Plugin configuration ([kedro_azureml.config])

    The classes are declared outside [generator.py]; the records hold the
    fields the generator reads. The temporary-storage section is passed
    through untouched, so its type [TS] is left open. *)

Module Config.
Record AzureMLConfig (TS : Type) : Type := {
  temporary_storage : TS;
}.
Global Arguments temporary_storage {TS} _.

Record DockerConfig : Type := {
  image : string;
}.

Record KedroAzureMLConfig (TS : Type) : Type := {
  azure : AzureMLConfig TS;
  docker : DockerConfig;
}.
Global Arguments azure {TS} _.
Global Arguments docker {TS} _.
End Config.

Module RunnerConfig.
Record KedroAzureRunnerConfig (TS : Type) : Type := {
  temporary_storage : TS;
  run_id : string;
  storage_account_key : option string;
}.
Global Arguments temporary_storage {TS} _.
Global Arguments run_id {TS} _.
Global Arguments storage_account_key {TS} _.
End RunnerConfig.

(** ** Azure ML SDK ([azure.ai.ml]): command components and their invocation *)

Module Azure.

(** [Input(type="string")] and [Input()] *)
Inductive Input : Type := Input_string | Input_default.

(** [Output()] *)
Inductive Output : Type := Output_default.

Record Environment : Type := {
  image : string;
}.

(** The component that [command(...)] builds. *)
Record Command : Type := {
  name : string;
  display_name : string;
  command : string;
  environment_variables : gmap string string;
  environment : Environment;
  inputs : gmap string Input;
  outputs : gmap string Output;
}.

(** The handle of one output of an invoked component: the step that owns it,
    named by its display name, and the output's parameter name. *)
Record NodeOutput : Type := {
  owner : string;
  port : string;
}.

(** What an input of an invoked component is bound to: the output handle of
    another step, or a string literal. *)
Inductive Binding : Type :=
  | Bound_output (o : NodeOutput)
  | Bound_str (s : string).

(** The step built by calling a component with keyword arguments. *)
Record Invoked : Type := {
  component : Command;
  bound_inputs : gmap string Binding;
}.

(** The call of the component [c] with the keyword arguments [kwargs]. *)
Definition invoke (c : Command) (kwargs : gmap string Binding) : Invoked :=
  {| component := c; bound_inputs := kwargs |}.

(** [step.outputs]: one handle for every output the component declares. *)
Definition step_outputs (step : Invoked) : gmap string NodeOutput :=
  map_imap
    (λ k _, Some {| owner := display_name (component step); port := k |})
    (outputs (component step)).

End Azure.

(** ** [AzureMLPipelineGenerator] *)

Record AzureMLPipelineGenerator (TS : Type) : Type := {
  storage_account_key : option string;
  kedro_environment : string;
  params : option (list string);
  docker_image : option string;
  config : Config.KedroAzureMLConfig TS;
  pipeline_name : string;
}.
Global Arguments storage_account_key {TS} _.
Global Arguments kedro_environment {TS} _.
Global Arguments params {TS} _.
Global Arguments docker_image {TS} _.
Global Arguments config {TS} _.
Global Arguments pipeline_name {TS} _.

(** [_prepare_command] *)
Definition _prepare_command {TS} (self : AzureMLPipelineGenerator TS)
    (node : Node.t) : string :=
  ("cd /home/kedro && kedro run -e " +:+ kedro_environment self
   +:+ " --pipeline=" +:+ pipeline_name self
   +:+ " --node=" +:+ Node.name node
   +:+ " --runner=kedroazureml.azurerunner.AzurePipelinesRunner")
  +:+ (if Py.nonempty (Node.outputs node)
       then
         " && "
         +:+ Py.join " && "
               ((λ name,
                   "echo 'Show must go on!' > ${{outputs."
                   +:+ _sanitize_param_name name
                   +:+ "}}/output.txt")
                  <$> Node.outputs node)
       else "").

Section Generator.

Context {TS : Type}.

(** [KedroAzureRunnerConfig.json], the serializer of the run context; it is
    declared with the class, outside [generator.py]. *)
Variable json : RunnerConfig.KedroAzureRunnerConfig TS → string.

Implicit Type self : AzureMLPipelineGenerator TS.

(** [_construct_azure_command] *)
Definition _construct_azure_command self (pipeline : Pipeline.t)
    (node : Node.t) (kedro_azure_run_id : string) : Azure.Command :=
  {| Azure.name := _sanitize_azure_name (Node.name node);
     Azure.display_name := Node.name node;
     Azure.command := _prepare_command self node;
     Azure.environment_variables :=
       {[ "KEDRO_AZURE_RUNNER_CONFIG" :=
            json
              {| RunnerConfig.temporary_storage :=
                   Config.temporary_storage (Config.azure (config self));
                 RunnerConfig.run_id := kedro_azure_run_id;
                 RunnerConfig.storage_account_key := storage_account_key self |} ]};
     Azure.environment :=
       {| Azure.image :=
            Py.or_else (docker_image self)
              (Config.image (Config.docker (config self))) |};
     Azure.inputs :=
       Py.dict_of_items
         ((λ name,
             (_sanitize_param_name name,
              if Py.contains (Pipeline.inputs pipeline) name
              then Azure.Input_string else Azure.Input_default))
            <$> Node.inputs node);
     Azure.outputs :=
       Py.dict_of_items
         ((λ name, (_sanitize_param_name name, Azure.Output_default))
            <$> Node.outputs node) |}.

(** The inner loop of [_connect_commands]: the bindings of the inputs
    [node_inputs] of one node are added to [azure_inputs]. *)
Fixpoint connect_inputs (dependencies : list Node.t)
    (invoked_components : gmap string Azure.Invoked)
    (node_inputs : list string) (azure_inputs : gmap string Azure.Binding)
    : Py.result (gmap string Azure.Binding) :=
  match node_inputs with
  | [] => Py.Ok azure_inputs
  | node_input :: rest =>
      let sanitized_input_name := _sanitize_param_name node_input in
      match
        Py.next_or_none (λ d, Py.contains (Node.outputs d) node_input)
          dependencies
      with
      | Some output_from_deps =>
          parent ← Py.getitem invoked_components (Node.name output_from_deps);
          azure_output ←
            Py.getitem (Azure.step_outputs parent) sanitized_input_name;
          connect_inputs dependencies invoked_components rest
            (<[sanitized_input_name := Azure.Bound_output azure_output]>
               azure_inputs)
      | None =>
          connect_inputs dependencies invoked_components rest
            (<[sanitized_input_name := Azure.Bound_str node_input]>
               azure_inputs)
      end
  end.

(** The outer loop of [_connect_commands] over the nodes [todo]. *)
Fixpoint connect_nodes (pipeline : Pipeline.t)
    (commands : gmap string Azure.Command) (todo : list Node.t)
    (invoked_components : gmap string Azure.Invoked)
    : Py.result (gmap string Azure.Invoked) :=
  match todo with
  | [] => Py.Ok invoked_components
  | node :: rest =>
      let dependencies := Pipeline.node_dependencies pipeline node in
      azure_inputs ←
        connect_inputs dependencies invoked_components (Node.inputs node) ∅;
      cmd ← Py.getitem commands (Node.name node);
      connect_nodes pipeline commands rest
        (<[Node.name node := Azure.invoke cmd azure_inputs]>
           invoked_components)
  end.

(** [_connect_commands] *)
Definition _connect_commands (pipeline : Pipeline.t)
    (commands : gmap string Azure.Command)
    : Py.result (gmap string Azure.Invoked) :=
  connect_nodes pipeline commands (Pipeline.nodes pipeline) ∅.

(** The message of the [ValueError] for a pipeline output without producer. *)
Definition no_producer_message (pipeline_output : string) : string :=
  "There is no node which outputs `" +:+ pipeline_output +:+ "` dataset".

(** The loop of [_gather_pipeline_outputs] over the outputs [todo]. *)
Fixpoint gather_outputs (pipeline : Pipeline.t)
    (invoked_components : gmap string Azure.Invoked) (todo : list string)
    (azure_pipeline_outputs : gmap string Azure.NodeOutput)
    : Py.result (gmap string Azure.NodeOutput) :=
  match todo with
  | [] => Py.Ok azure_pipeline_outputs
  | pipeline_output :: rest =>
      let sanitized_output_name := _sanitize_param_name pipeline_output in
      match
        Py.next_or_none (λ n, Py.contains (Node.outputs n) pipeline_output)
          (Pipeline.nodes pipeline)
      with
      | None => Py.Raise (Py.ValueError (no_producer_message pipeline_output))
      | Some source_node =>
          step ← Py.getitem invoked_components (Node.name source_node);
          handle ← Py.getitem (Azure.step_outputs step) sanitized_output_name;
          gather_outputs pipeline invoked_components rest
            (<[sanitized_output_name := handle]> azure_pipeline_outputs)
      end
  end.

(** [_gather_pipeline_outputs] *)
Definition _gather_pipeline_outputs (pipeline : Pipeline.t)
    (invoked_components : gmap string Azure.Invoked)
    : Py.result (gmap string Azure.NodeOutput) :=
  gather_outputs pipeline invoked_components (Pipeline.outputs pipeline) ∅.

(** The first loop of [kedro_azure_pipeline_fn]: one command per node, stored
    under the node's name. *)
Definition build_commands self (pipeline : Pipeline.t)
    (kedro_azure_run_id : string) : gmap string Azure.Command :=
  Py.dict_of_items
    ((λ node, (Node.name node,
               _construct_azure_command self pipeline node kedro_azure_run_id))
       <$> Pipeline.nodes pipeline).

(** [kedro_azure_pipeline_fn], the body of [generate], for the pipeline that
    the registry holds under [pipeline_name] and the run identifier that
    [uuid4] returned. *)
Definition kedro_azure_pipeline_fn self (pipeline : Pipeline.t)
    (kedro_azure_run_id : string) : Py.result (gmap string Azure.NodeOutput) :=
  let commands := build_commands self pipeline kedro_azure_run_id in
  invoked_components ← _connect_commands pipeline commands;
  _gather_pipeline_outputs pipeline invoked_components.

End Generator.

(** ** Notions used to state the properties *)

(** What one character of a name becomes in [_sanitize_param_name]. *)
Definition param_char (c : ascii) : ascii :=
  if Py.word_char (Py.lower_char c) then Py.lower_char c else "_"%char.

(** What one character of a name becomes in [_sanitize_azure_name]. *)
Definition azure_name_chars (c : ascii) : string :=
  if Ascii.eqb c "." then "__" else String (Py.lower_char c) "".





(** Node names are unique within the pipeline, as Kedro requires. *)
Definition unique_names (pipeline : Pipeline.t) : Prop :=
  NoDup (Node.name <$> Pipeline.nodes pipeline).

(** The node sequence is in topological order: every dependency of a node
    stands before the node. *)
Definition topologically_sorted (pipeline : Pipeline.t) : Prop :=
  ∀ earlier node later,
    Pipeline.nodes pipeline = earlier ++ node :: later →
    ∀ d, d ∈ Pipeline.node_dependencies pipeline node → d ∈ earlier.

(** The pipeline invariant: a dataset that some node consumes is either
    externally supplied, and then no node produces it, or produced by exactly
    one node, and then not externally supplied. *)
Definition single_producer (pipeline : Pipeline.t) : Prop :=
  ∀ node name,
    node ∈ Pipeline.nodes pipeline → name ∈ Node.inputs node →
    (name ∈ Pipeline.inputs pipeline
     ∧ (∀ m, m ∈ Pipeline.nodes pipeline → name ∉ Node.outputs m))
    ∨ ((name ∉ Pipeline.inputs pipeline)
       ∧ (∃ m, m ∈ Pipeline.nodes pipeline ∧ name ∈ Node.outputs m
               ∧ (∀ m', m' ∈ Pipeline.nodes pipeline →
                        name ∈ Node.outputs m' → m' = m))).

(** [d] is the first of [candidates] that lists [name] among its outputs. *)
Definition first_producer (candidates : list Node.t) (name : string)
    (d : Node.t) : Prop :=
  ∃ before after,
    candidates = before ++ d :: after
    ∧ name ∈ Node.outputs d
    ∧ (∀ d', d' ∈ before → name ∉ Node.outputs d').

(** No other name of [names] has the sanitized name of [name]. *)
Definition unshadowed (names : list string) (name : string) : Prop :=
  ∀ other, other ∈ names →
    _sanitize_param_name other = _sanitize_param_name name → other = name.

(** The name of [names] that decides what a dictionary built over [names]
    holds under the sanitized name [k]: the last one sanitized to [k]. *)
Definition deciding_name (names : list string) (k : string) : option string :=
  last (filter (λ name, _sanitize_param_name name = k) names).

(** The handle of the output [name] of the step wired for [producer]. *)
Definition output_handle (producer : Node.t) (name : string)
    : Azure.NodeOutput :=
  {| Azure.owner := Node.name producer;
     Azure.port := _sanitize_param_name name |}.

(** What the wiring binds the input [name] to, given the dependencies of the
    consuming node. *)
Definition binding_of (dependencies : list Node.t) (name : string)
    : Azure.Binding :=
  match
    Py.next_or_none (λ d, Py.contains (Node.outputs d) name) dependencies
  with
  | Some d => Azure.Bound_output (output_handle d name)
  | None => Azure.Bound_str name
  end.

Section Closed_form.

Context {TS : Type}.
Variable json : RunnerConfig.KedroAzureRunnerConfig TS → string.
Variables (self : AzureMLPipelineGenerator TS) (pipeline : Pipeline.t)
  (run_id : string).

(** The step that the wiring builds for [node]. *)
Definition wired_step (node : Node.t) : Azure.Invoked :=
  Azure.invoke (_construct_azure_command json self pipeline node run_id)
    (Py.dict_of_items
       ((λ name,
           (_sanitize_param_name name,
            binding_of (Pipeline.node_dependencies pipeline node) name))
          <$> Node.inputs node)).

(** The steps that the wiring has built once it has processed [nodes]. *)
Definition wired_steps (nodes : list Node.t) : gmap string Azure.Invoked :=
  Py.dict_of_items ((λ node, (Node.name node, wired_step node)) <$> nodes).

End Closed_form.

(** The handle that the output resolver finds for the pipeline output
    [name]: that of the first node of the pipeline that lists it. *)
Definition resolved_handle (pipeline : Pipeline.t) (name : string)
    : option Azure.NodeOutput :=
  (λ producer, output_handle producer name)
    <$> Py.next_or_none (λ n, Py.contains (Node.outputs n) name)
          (Pipeline.nodes pipeline).

(** ** Worked examples *)

Module Example.

(** A stand-in for the serializer of the run context, over temporary
    storage given by its location. *)
Definition json (c : RunnerConfig.KedroAzureRunnerConfig string) : string :=
  "{" +:+ RunnerConfig.temporary_storage c
  +:+ "," +:+ RunnerConfig.run_id c
  +:+ "," +:+ default "" (RunnerConfig.storage_account_key c) +:+ "}".

Definition generator : AzureMLPipelineGenerator string :=
  {| storage_account_key := Some "";
     kedro_environment := "local";
     params := None;
     docker_image := None;
     config :=
       {| Config.azure := {| Config.temporary_storage := "abfs://tmp" |};
          Config.docker := {| Config.image := "registry/project:latest" |} |};
     pipeline_name := "__default__" |}.

(** The same generator with an image given on the command line. *)
Definition generator_with_image : AzureMLPipelineGenerator string :=
  {| storage_account_key := Some "";
     kedro_environment := "local";
     params := None;
     docker_image := Some "registry/project:test";
     config := config generator;
     pipeline_name := "__default__" |}.

(** Node [A] produces [raw]; node [B] reads [raw] and a parameter and
    produces [clean], the output of the pipeline. *)
Definition node_a : Node.t :=
  {| Node.name := "A"; Node.inputs := []; Node.outputs := ["raw"] |}.
Definition node_b : Node.t :=
  {| Node.name := "B";
     Node.inputs := ["raw"; "params:alpha"];
     Node.outputs := ["clean"] |}.
Definition pipeline : Pipeline.t :=
  {| Pipeline.nodes := [node_a; node_b];
     Pipeline.node_dependencies :=
       λ n, if decide (Node.name n = "B") then [node_a] else [];
     Pipeline.inputs := ["params:alpha"];
     Pipeline.outputs := ["clean"] |}.

(** The same pipeline, declaring an output that no node produces. *)
Definition pipeline_missing_output : Pipeline.t :=
  {| Pipeline.nodes := [node_a; node_b];
     Pipeline.node_dependencies :=
       λ n, if decide (Node.name n = "B") then [node_a] else [];
     Pipeline.inputs := ["params:alpha"];
     Pipeline.outputs := ["clean"; "missing"] |}.

(** Two inputs of one node with the same sanitized name: [N] reads the
    external dataset [A] and the dataset [a] that [P] produces. *)
Definition producer : Node.t :=
  {| Node.name := "P"; Node.inputs := []; Node.outputs := ["a"] |}.
Definition consumer : Node.t :=
  {| Node.name := "N"; Node.inputs := ["A"; "a"]; Node.outputs := ["out"] |}.
Definition shadowing_pipeline : Pipeline.t :=
  {| Pipeline.nodes := [producer; consumer];
     Pipeline.node_dependencies :=
       λ n, if decide (Node.name n = "N") then [producer] else [];
     Pipeline.inputs := ["A"];
     Pipeline.outputs := ["out"] |}.

(** Two pipeline outputs with the same sanitized name, from two nodes. *)
Definition upper : Node.t :=
  {| Node.name := "U"; Node.inputs := []; Node.outputs := ["A"] |}.
Definition lower : Node.t :=
  {| Node.name := "L"; Node.inputs := []; Node.outputs := ["a"] |}.
Definition clashing_pipeline : Pipeline.t :=
  {| Pipeline.nodes := [upper; lower];
     Pipeline.node_dependencies := λ _, [];
     Pipeline.inputs := [];
     Pipeline.outputs := ["A"; "a"] |}.

End Example.

(** ** The command line ([kedro_azureml/cli.py]): [init]

    What [init] computes itself: the keyword arguments it formats the
    configuration template with, and the messages it prints. The template
    ([CONFIG_TEMPLATE], dumped as YAML), [str.format], the directory name
    [KEDRO_AZURE_BLOB_TEMP_DIR_NAME] and the Kedro context are declared
    elsewhere and are arguments of the model. *)

Module Cli.

(** One call of [click.echo]: the text, and the colour when the text is
    passed through [click.style(text, fg=colour)]. *)
Record Echo : Type := {
  text : string;
  fg : option string;
}.

(** What [init] does: the file it writes and the messages it prints, in
    order. *)
Record Effects : Type := {
  written_path : string;
  written_text : string;
  echoed : list Echo;
}.

(** The line feed of Python's ["\n"]. *)
Definition newline : string := String "010"%char "".

(** The value that [init] passes for [docker_image]. *)
Definition docker_image (acr project_name : string) : string :=
  if Py.truthy (Some acr)
  then acr +:+ ".azurecr.io/" +:+ project_name +:+ ":latest"
  else "<fill in docker image>".

(** The keyword arguments of [format] in [init]. *)
Definition format_arguments
    (resource_group workspace_name experiment_name cluster_name
       storage_account_name storage_container acr project_name : string)
    : gmap string string :=
  Py.dict_of_items
    [("resource_group", resource_group);
     ("workspace_name", workspace_name);
     ("experiment_name", experiment_name);
     ("cluster_name", cluster_name);
     ("docker_image", docker_image acr project_name);
     ("storage_container", storage_container);
     ("storage_account_name", storage_account_name)].

Section Init.

(** [yaml.safe_dump(CONFIG_TEMPLATE.dict())] *)
Variable config_template : string.
(** [str.format], called on the template with the keyword arguments *)
Variable format : string → gmap string string → string.
(** [KEDRO_AZURE_BLOB_TEMP_DIR_NAME] *)
Variable KEDRO_AZURE_BLOB_TEMP_DIR_NAME : string.

(** [init], for the target path [Path.cwd().joinpath("conf/base/azureml.yml")]
    and the name of the project directory. *)
Definition init (target_path project_name : string)
    (resource_group workspace_name experiment_name cluster_name
       storage_account_name storage_container acr : string) : Effects :=
  let cfg :=
    format config_template
      (format_arguments resource_group workspace_name experiment_name
         cluster_name storage_account_name storage_container acr project_name)
  in
  {| written_path := target_path;
     written_text := cfg;
     echoed :=
       [ {| text := "Configuration generated in " +:+ target_path;
            fg := None |};
         {| text :=
              "It's recommended to set Lifecycle management rule for storage container "
              +:+ storage_container +:+ " "
              +:+ "to avoid costs of long-term storage of the temporary data."
              +:+ newline +:+ "Temporary data will be stored under abfs://"
              +:+ storage_container +:+ "/" +:+ KEDRO_AZURE_BLOB_TEMP_DIR_NAME
              +:+ " path"
              +:+ newline
              +:+ "See https://docs.microsoft.com/en-us/azure/storage/blobs/lifecycle-management-policy-configure?tabs=azure-portal";
            fg := Some "green" |} ]
       ++ (if negb (Py.truthy (Some acr))
           then
             [ {| text :=
                    "Please fill in docker image name before running the pipeline";
                  fg := Some "yellow" |} ]
           else []) |}.

End Init.

(** The last character of a string. *)
Fixpoint last_char (s : string) : option ascii :=
  match s with
  | EmptyString => None
  | String c EmptyString => Some c
  | String _ s' => last_char s'
  end.

End Cli.

(** ** Further worked examples *)

Module Example_more.

(** The pipeline [A -> B] with its nodes in the wrong order. *)
Definition unsorted_pipeline : Pipeline.t :=
  {| Pipeline.nodes := [Example.node_b; Example.node_a];
     Pipeline.node_dependencies :=
       λ n, if decide (Node.name n = "B") then [Example.node_a] else [];
     Pipeline.inputs := ["params:alpha"];
     Pipeline.outputs := ["clean"] |}.

(** A stand-in for [str.format]: the template followed by the image. *)
Definition format (template : string) (arguments : gmap string string)
    : string :=
  template +:+ default "" (arguments !! "docker_image").

End Example_more.

(** ** The name sanitizers *)

Section Sanitizers.

Lemma word_char_lower c : Py.word_char c = true → Py.lower_char c = c.
Proof.
  destruct c as [[] [] [] [] [] [] [] []]; vm_compute; congruence.
Qed.

Lemma word_char_param_char c : Py.word_char (param_char c) = true.
Proof.
  unfold param_char.
  destruct (Py.word_char (Py.lower_char c)) eqn:E; [exact E | reflexivity].
Qed.

Lemma sanitize_param_cons c s :
  _sanitize_param_name (String c s)
  = String (param_char c) (_sanitize_param_name s).
Proof.
  unfold _sanitize_param_name, param_char; simpl.
  destruct (Py.word_char (Py.lower_char c)); reflexivity.
Qed.

Lemma sanitize_param_word_chars s :
  Py.all_chars Py.word_char (_sanitize_param_name s) = true.
Proof.
  induction s as [|c s IH]; [reflexivity|].
  rewrite sanitize_param_cons; simpl.
  by rewrite word_char_param_char, IH.
Qed.

Lemma sanitize_param_fixes_words s :
  Py.all_chars Py.word_char s = true → _sanitize_param_name s = s.
Proof.
  induction s as [|c s IH]; [reflexivity|]; simpl.
  intros [Hc Hs]%andb_true_iff.
  rewrite sanitize_param_cons, IH by exact Hs.
  unfold param_char. by rewrite (word_char_lower c Hc), Hc.
Qed.

Lemma lower_char_dot c :
  Ascii.eqb (Py.lower_char c) "." = Ascii.eqb c ".".
Proof.
  destruct c as [[] [] [] [] [] [] [] []]; reflexivity.
Qed.

End Sanitizers.


(** C9. [_sanitize_param_name] is idempotent. *)
Theorem sanitize_param_name_idempotent (x : string) :
  _sanitize_param_name (_sanitize_param_name x) = _sanitize_param_name x.
Proof.
  apply sanitize_param_fixes_words, sanitize_param_word_chars.
Qed.

Lemma sanitize_azure_cons c s :
  _sanitize_azure_name (String c s)
  = azure_name_chars c +:+ _sanitize_azure_name s.
Proof.
  unfold _sanitize_azure_name, azure_name_chars; simpl.
  rewrite lower_char_dot. destruct (Ascii.eqb c "."); reflexivity.
Qed.


(** ** Strings and dictionaries *)

Section Strings.

Lemma string_app_cons x (a b : string) :
  String x a +:+ b = String x (a +:+ b).
Proof. reflexivity. Qed.





End Strings.

Section Dicts.

Context {A V : Type}.
Implicit Types (key : A → string) (val : A → V) (xs : list A).

Lemma dict_of_items_snoc {U} (items : list (string * U)) kv :
  Py.dict_of_items (items ++ [kv]) = <[kv.1 := kv.2]> (Py.dict_of_items items).
Proof. unfold Py.dict_of_items. by rewrite foldl_app. Qed.

(** A dictionary built by assignments holds, under a key, the value of the
    last item with that key. *)
Lemma dict_of_items_lookup key val xs (k : string) :
  Py.dict_of_items ((λ x, (key x, val x)) <$> xs) !! k
  = val <$> last (filter (λ x, key x = k) xs).
Proof.
  induction xs as [|x xs IH] using rev_ind; [done|].
  rewrite fmap_app, fmap_cons, fmap_nil, dict_of_items_snoc.
  rewrite filter_app, last_app, lookup_insert, filter_cons, filter_nil. cbn.
  repeat case_decide; simplify_eq; done.
Qed.

(** An item whose key no other item shares is the last one with its key. *)
Lemma last_filter_key key xs x :
  x ∈ xs → (∀ y, y ∈ xs → key y = key x → y = x) →
  last (filter (λ y, key y = key x) xs) = Some x.
Proof.
  intros Hx Hkey.
  destruct (last (filter (λ y, key y = key x) xs)) as [z|] eqn:E.
  - apply last_Some_elem_of, list_elem_of_filter in E as [Hz Hin].
    f_equal. by apply Hkey.
  - apply last_None in E.
    by destruct (filter_nil_not_elem_of _ _ x E).
Qed.

Lemma NoDup_key_inj key xs x y :
  NoDup (key <$> xs) → x ∈ xs → y ∈ xs → key y = key x → y = x.
Proof.
  induction xs as [|z xs IH]; [by intros _ ?%elem_of_nil|].
  rewrite fmap_cons, NoDup_cons. intros [Hz Hxs].
  intros [->|Hx]%elem_of_cons [->|Hy]%elem_of_cons Heq; auto.
  - destruct Hz. rewrite <-Heq. by apply list_elem_of_fmap_2.
  - destruct Hz. rewrite Heq. by apply list_elem_of_fmap_2.
Qed.

Lemma dict_of_items_lookup_unique key val xs x :
  NoDup (key <$> xs) → x ∈ xs →
  Py.dict_of_items ((λ x, (key x, val x)) <$> xs) !! key x = Some (val x).
Proof.
  intros Hnd Hx. rewrite dict_of_items_lookup, last_filter_key; [done..|].
  intros y ??. by eapply NoDup_key_inj.
Qed.

Lemma dict_of_items_is_Some key val xs (k : string) :
  is_Some (Py.dict_of_items ((λ x, (key x, val x)) <$> xs) !! k)
  ↔ ∃ x, x ∈ xs ∧ key x = k.
Proof.
  rewrite dict_of_items_lookup, fmap_is_Some, last_is_Some. split.
  - destruct (filter _ xs) as [|x l] eqn:E; [done|]. intros _.
    assert (x ∈ filter (λ x, key x = k) xs) as Hx by (rewrite E; left).
    apply list_elem_of_filter in Hx as [??]. eauto.
  - intros (x & Hx & Hk) E. by destruct (filter_nil_not_elem_of _ _ x E).
Qed.

Lemma dict_of_items_fmap {W} (f : V → W) key val xs :
  f <$> Py.dict_of_items ((λ x, (key x, val x)) <$> xs)
  = Py.dict_of_items ((λ x, (key x, f (val x))) <$> xs).
Proof.
  induction xs as [|x xs IH] using rev_ind; [apply fmap_empty|].
  rewrite !fmap_app, !fmap_cons, !fmap_nil, !dict_of_items_snoc.
  by rewrite fmap_insert, IH.
Qed.

End Dicts.

(** ** The command step builder *)

Section Builder.

Context {TS : Type}.
Variable json : RunnerConfig.KedroAzureRunnerConfig TS → string.
Implicit Types (self : AzureMLPipelineGenerator TS) (node : Node.t).



Lemma build_commands_lookup self pipeline run_id node :
  NoDup (Node.name <$> Pipeline.nodes pipeline) →
  node ∈ Pipeline.nodes pipeline →
  build_commands json self pipeline run_id !! Node.name node
  = Some (_construct_azure_command json self pipeline node run_id).
Proof.
  intros. unfold build_commands.
  by rewrite (dict_of_items_lookup_unique Node.name).
Qed.

End Builder.


(** C10. The container image of a command step is the override given to the
    generator when that is a non-empty string, and the image of the
    configuration when the override is [None] or the empty string. *)
Theorem docker_image_override {TS}
    (json : RunnerConfig.KedroAzureRunnerConfig TS → string)
    (self : AzureMLPipelineGenerator TS) pipeline node run_id :
  (∀ override, docker_image self = Some override → override ≠ "" →
     Azure.image
       (Azure.environment
          (_construct_azure_command json self pipeline node run_id))
     = override)
  ∧ (docker_image self = None ∨ docker_image self = Some "" →
     Azure.image
       (Azure.environment
          (_construct_azure_command json self pipeline node run_id))
     = Config.image (Config.docker (config self))).
Proof.
  cbn. split.
  - intros override -> Hne. by destruct override.
  - by intros [-> | ->].
Qed.

(** C4. Two lowerings of the same pipeline give every node the same command
    string and the same run-context payload as soon as they agree on the
    environment name, the pipeline name, the temporary-storage
    configuration, the storage credential and the run identifier; in
    particular when the whole configuration is the same. *)
Theorem lowering_deterministic {TS}
    (json : RunnerConfig.KedroAzureRunnerConfig TS → string)
    (self1 self2 : AzureMLPipelineGenerator TS) pipeline
    (run_id1 run_id2 : string) :
  kedro_environment self1 = kedro_environment self2 →
  pipeline_name self1 = pipeline_name self2 →
  Config.temporary_storage (Config.azure (config self1))
  = Config.temporary_storage (Config.azure (config self2)) →
  storage_account_key self1 = storage_account_key self2 →
  run_id1 = run_id2 →
  (∀ node,
     Azure.command (_construct_azure_command json self1 pipeline node run_id1)
     = Azure.command (_construct_azure_command json self2 pipeline node run_id2)
     ∧ Azure.environment_variables
         (_construct_azure_command json self1 pipeline node run_id1)
       = Azure.environment_variables
           (_construct_azure_command json self2 pipeline node run_id2))
  ∧ (λ c, (Azure.command c, Azure.environment_variables c))
      <$> build_commands json self1 pipeline run_id1
    = (λ c, (Azure.command c, Azure.environment_variables c))
      <$> build_commands json self2 pipeline run_id2.
Proof.
  intros Henv Hname Hts Hkey <-.
  assert (∀ node,
    Azure.command (_construct_azure_command json self1 pipeline node run_id1)
    = Azure.command (_construct_azure_command json self2 pipeline node run_id1)
    ∧ Azure.environment_variables
        (_construct_azure_command json self1 pipeline node run_id1)
      = Azure.environment_variables
          (_construct_azure_command json self2 pipeline node run_id1)) as H.
  { intros node. cbn. rewrite Hts, Hkey. split; [|done].
    unfold _prepare_command. by rewrite Henv, Hname. }
  split; [exact H|].
  unfold build_commands. rewrite !(dict_of_items_fmap _ Node.name).
  f_equal. apply list_fmap_ext. intros _ node _.
  destruct (H node) as [-> ->]. done.
Qed.

(** ** The graph wiring engine *)

Section Search.

Context {A : Type}.

Lemma next_or_none_Some (p : A → bool) (xs : list A) (x : A) :
  Py.next_or_none p xs = Some x
  ↔ ∃ before after,
      xs = before ++ x :: after ∧ p x = true ∧ ∀ y, y ∈ before → p y = false.
Proof.
  unfold Py.next_or_none. induction xs as [|y xs IH]; cbn.
  - split; [done|]. by intros ([|??] & ? & ? & _).
  - destruct (p y) eqn:Hy.
    + split.
      * intros [= ->]. exists [], xs. split_and!; [done..|].
        by intros ? ?%elem_of_nil.
      * intros ([|z before] & after & Heq & Hx & Hbefore); simplify_eq/=;
          [done|]. rewrite Hbefore in Hy; [done | left].
    + rewrite IH. split.
      * intros (before & after & -> & Hx & Hbefore).
        exists (y :: before), after. split_and!; [done..|].
        by intros z [->|?]%elem_of_cons; auto.
      * intros ([|z before] & after & Heq & Hx & Hbefore); simplify_eq/=;
          [congruence|].
        exists before, after. split_and!; [done..|].
        intros. apply Hbefore. by right.
Qed.

Lemma next_or_none_None (p : A → bool) (xs : list A) :
  Py.next_or_none p xs = None ↔ ∀ y, y ∈ xs → p y = false.
Proof.
  unfold Py.next_or_none. induction xs as [|y xs IH]; cbn.
  - split; [|done]. by intros _ ? ?%elem_of_nil.
  - destruct (p y) eqn:Hy.
    + split; [done|]. intros H. rewrite H in Hy; [done | left].
    + rewrite IH. split.
      * by intros H z [->|?]%elem_of_cons; auto.
      * intros H z ?. apply H. by right.
Qed.

End Search.

Lemma contains_true xs x : Py.contains xs x = true ↔ x ∈ xs.
Proof. apply bool_decide_eq_true. Qed.

Lemma contains_false xs x : Py.contains xs x = false ↔ x ∉ xs.
Proof. apply bool_decide_eq_false. Qed.

Lemma producer_found candidates name d :
  Py.next_or_none (λ d, Py.contains (Node.outputs d) name) candidates = Some d
  ↔ first_producer candidates name d.
Proof.
  rewrite next_or_none_Some. unfold first_producer.
  setoid_rewrite contains_true. by setoid_rewrite contains_false.
Qed.

Lemma producer_missing candidates name :
  Py.next_or_none (λ d, Py.contains (Node.outputs d) name) candidates = None
  ↔ ∀ d, d ∈ candidates → name ∉ Node.outputs d.
Proof. rewrite next_or_none_None. by setoid_rewrite contains_false. Qed.

Lemma first_producer_elem candidates name d :
  first_producer candidates name d → d ∈ candidates ∧ name ∈ Node.outputs d.
Proof.
  intros (before & after & -> & ? & _). split; [|done].
  apply elem_of_app. right. left.
Qed.

Lemma step_outputs_lookup step k :
  Azure.step_outputs step !! k
  = (λ _, {| Azure.owner := Azure.display_name (Azure.component step);
             Azure.port := k |})
      <$> Azure.outputs (Azure.component step) !! k.
Proof.
  unfold Azure.step_outputs. rewrite map_lookup_imap.
  by destruct (Azure.outputs (Azure.component step) !! k).
Qed.

Section Wiring.

Context {TS : Type}.
Variable json : RunnerConfig.KedroAzureRunnerConfig TS → string.
Variables (self : AzureMLPipelineGenerator TS) (pipeline : Pipeline.t)
  (run_id : string).

Abbreviation construct := (_construct_azure_command json self pipeline).
Abbreviation commands := (build_commands json self pipeline run_id).
Abbreviation step_of := (wired_step json self pipeline run_id).
Abbreviation steps_of := (wired_steps json self pipeline run_id).

Lemma declared_output node name :
  name ∈ Node.outputs node →
  Azure.outputs (construct node run_id) !! _sanitize_param_name name
  = Some Azure.Output_default.
Proof.
  intros Hin.
  assert (is_Some (Azure.outputs (construct node run_id)
                     !! _sanitize_param_name name)) as [[] ->]; [|done].
  apply dict_of_items_is_Some. eauto.
Qed.

Lemma foldl_insert_dict {A V} (key : A → string) (val : A → V) xs :
  foldl (λ acc x, <[key x := val x]> acc) ∅ xs
  = Py.dict_of_items ((λ x, (key x, val x)) <$> xs).
Proof. unfold Py.dict_of_items. by rewrite foldl_fmap. Qed.

(** The inner loop computes the bindings given by [binding_of], provided
    every producer that it finds among the dependencies has been wired. *)
Lemma connect_inputs_closed dependencies invoked node_inputs azure_inputs :
  (∀ name d,
     name ∈ node_inputs → first_producer dependencies name d →
     invoked !! Node.name d = Some (step_of d)) →
  connect_inputs dependencies invoked node_inputs azure_inputs
  = Py.Ok
      (foldl (λ acc name,
                <[_sanitize_param_name name := binding_of dependencies name]>
                  acc)
         azure_inputs node_inputs).
Proof.
  revert azure_inputs.
  induction node_inputs as [|name rest IH]; intros azure_inputs Hwired;
    [done|].
  cbn [connect_inputs foldl]. unfold binding_of at 2.
  destruct (Py.next_or_none _ dependencies) as [d|] eqn:Hd.
  - apply producer_found in Hd.
    destruct (first_producer_elem _ _ _ Hd) as [_ Hout].
    unfold Py.getitem. rewrite (Hwired name d) by (done || left).
    cbn [mbind Py.result_bind].
    rewrite step_outputs_lookup.
    change (Azure.component (step_of d)) with (construct d run_id).
    rewrite declared_output by done.
    cbn [mbind Py.result_bind fmap option_fmap option_map].
    apply IH. intros name' d' ??. apply (Hwired name' d'); [by right | done].
  - apply IH. intros name' d' ??. apply (Hwired name' d'); [by right | done].
Qed.

Lemma wired_steps_snoc nodes node :
  steps_of (nodes ++ [node]) = <[Node.name node := step_of node]> (steps_of nodes).
Proof.
  unfold wired_steps.
  by rewrite fmap_app, fmap_cons, fmap_nil, dict_of_items_snoc.
Qed.

Lemma wired_steps_lookup nodes node :
  NoDup (Node.name <$> nodes) → node ∈ nodes →
  steps_of nodes !! Node.name node = Some (step_of node).
Proof.
  intros. unfold wired_steps.
  by rewrite (dict_of_items_lookup_unique Node.name).
Qed.

(** The outer loop, started after the nodes [done] on the nodes [todo] that
    follow them in the pipeline, ends with the steps of [done ++ todo]. *)
Lemma connect_nodes_closed :
  unique_names pipeline → topologically_sorted pipeline →
  ∀ todo done later,
    Pipeline.nodes pipeline = done ++ todo ++ later →
    connect_nodes pipeline commands todo (steps_of done)
    = Py.Ok (steps_of (done ++ todo)).
Proof.
  intros Hnames Hsorted.
  induction todo as [|node todo IH]; intros done later Hnodes.
  - by rewrite app_nil_r.
  - assert (NoDup (Node.name <$> done)) as Hdone.
    { unfold unique_names in Hnames. rewrite Hnodes, fmap_app in Hnames.
      by apply NoDup_app in Hnames as [? _]. }
    cbn [connect_nodes]. rewrite connect_inputs_closed.
    2:{ intros name d _ Hd. apply wired_steps_lookup; [done|].
        apply (Hsorted done node (todo ++ later) Hnodes).
        by apply first_producer_elem in Hd as [? _]. }
    cbn [mbind Py.result_bind]. unfold Py.getitem.
    rewrite build_commands_lookup; [|done|].
    2:{ rewrite Hnodes. apply elem_of_app. right. left. }
    cbn [mbind Py.result_bind]. rewrite foldl_insert_dict.
    change (Azure.invoke _ _) with (step_of node).
    rewrite <-wired_steps_snoc, (IH (done ++ [node]) later).
    + by rewrite <-app_assoc.
    + by rewrite <-app_assoc.
Qed.

(** The wiring in closed form. *)
Lemma connect_commands_closed :
  unique_names pipeline → topologically_sorted pipeline →
  _connect_commands pipeline commands
  = Py.Ok (steps_of (Pipeline.nodes pipeline)).
Proof.
  intros Hnames Hsorted.
  apply (connect_nodes_closed Hnames Hsorted (Pipeline.nodes pipeline) [] []).
  by rewrite app_nil_r.
Qed.



End Wiring.

Section Dom.

Context {A V : Type}.

Lemma dict_of_items_dom (key : A → string) (val : A → V) (xs : list A) :
  dom (Py.dict_of_items ((λ x, (key x, val x)) <$> xs))
  = list_to_set (C := gset string) (key <$> xs).
Proof.
  apply set_eq. intros k.
  rewrite elem_of_dom, elem_of_list_to_set, list_elem_of_fmap.
  rewrite dict_of_items_is_Some.
  split; intros (x & ? & ?); exists x; done.
Qed.

Lemma deciding_name_Some names k name :
  deciding_name names k = Some name →
  name ∈ names ∧ _sanitize_param_name name = k.
Proof.
  unfold deciding_name. intros Hlast%last_Some_elem_of.
  by apply list_elem_of_filter in Hlast as [??].
Qed.

Lemma deciding_name_unshadowed names name :
  name ∈ names → unshadowed names name →
  deciding_name names (_sanitize_param_name name) = Some name.
Proof. intros. by apply (last_filter_key _sanitize_param_name). Qed.

Lemma deciding_name_elem names name :
  name ∈ names →
  ∃ deciding, deciding_name names (_sanitize_param_name name) = Some deciding.
Proof.
  intros Hin. apply last_is_Some. intros E.
  by destruct (filter_nil_not_elem_of _ _ name E).
Qed.

End Dom.

Section Examples.

Import Example.

Lemma pipeline_unique_names : unique_names pipeline.
Proof. apply (bool_decide_unpack _). by vm_compute. Qed.

Lemma pipeline_sorted : topologically_sorted pipeline.
Proof.
  intros [|x [|y [|z earlier]]] node later Heq d Hd; simplify_eq/=.
  - by apply elem_of_nil in Hd.
  - vm_compute in Hd. by apply list_elem_of_singleton in Hd as ->; left.
Qed.

End Examples.

(** ** Input and output declarations of a command step *)

(** C6, as stated, fails when two inputs of a node have the same sanitized
    name: node [N] reads the external dataset [A] and the produced dataset
    [a]; the command declares the single input [a], generic, so [A] is not
    declared as a string input. *)
Lemma declarations_counterexample :
  ¬ (∀ name,
       name ∈ Node.inputs Example.consumer →
       Azure.inputs
         (_construct_azure_command Example.json Example.generator
            Example.shadowing_pipeline Example.consumer "run")
         !! _sanitize_param_name name
       = Some (if decide (name ∈ Pipeline.inputs Example.shadowing_pipeline)
               then Azure.Input_string else Azure.Input_default)).
Proof.
  intros H. specialize (H "A" ltac:(left)). vm_compute in H. discriminate.
Qed.

(** C6, amended. A command step declares an input under the sanitized name
    of each input of its node; the declaration is decided by the last input
    of the node with that sanitized name: a string input when that dataset
    is among the external inputs of the pipeline, a generic input otherwise.
    So an input whose sanitized name no other input of the node shares is
    declared as a string input if and only if it is an external input of
    the pipeline. Every output of the node is declared under its sanitized
    name as a generic output. *)
Theorem declarations_by_deciding_name {TS}
    (json : RunnerConfig.KedroAzureRunnerConfig TS → string)
    (self : AzureMLPipelineGenerator TS) pipeline node run_id :
  (∀ name, name ∈ Node.inputs node →
     ∃ deciding,
       deciding_name (Node.inputs node) (_sanitize_param_name name)
       = Some deciding
       ∧ Azure.inputs (_construct_azure_command json self pipeline node run_id)
           !! _sanitize_param_name name
         = Some (if decide (deciding ∈ Pipeline.inputs pipeline)
                 then Azure.Input_string else Azure.Input_default))
  ∧ (∀ name, name ∈ Node.inputs node → unshadowed (Node.inputs node) name →
       Azure.inputs (_construct_azure_command json self pipeline node run_id)
         !! _sanitize_param_name name
       = Some (if decide (name ∈ Pipeline.inputs pipeline)
               then Azure.Input_string else Azure.Input_default))
  ∧ (∀ name, name ∈ Node.outputs node →
       Azure.outputs (_construct_azure_command json self pipeline node run_id)
         !! _sanitize_param_name name
       = Some Azure.Output_default).
Proof.
  assert (∀ k,
    Azure.inputs (_construct_azure_command json self pipeline node run_id) !! k
    = (λ name, if decide (name ∈ Pipeline.inputs pipeline)
               then Azure.Input_string else Azure.Input_default)
        <$> deciding_name (Node.inputs node) k) as Hlookup.
  { intros k. cbn. rewrite (dict_of_items_lookup _sanitize_param_name).
    unfold deciding_name. destruct (last _) as [name|]; [|done]. cbn.
    unfold Py.contains.
    by destruct (decide (name ∈ Pipeline.inputs pipeline));
      [rewrite bool_decide_eq_true_2 | rewrite bool_decide_eq_false_2]. }
  split; [|split].
  - intros name [deciding Hd]%deciding_name_elem. exists deciding.
    by rewrite Hlookup, Hd.
  - intros name Hin Hun.
    by rewrite Hlookup, deciding_name_unshadowed.
  - intros name Hin. by apply declared_output.
Qed.

(** An instance of the amended C6 on the pipeline [A -> B]: the parameter of
    [B] is declared as a string input and the dataset from [A] as a generic
    input. *)
Lemma declarations_by_deciding_name_witness :
  unshadowed (Node.inputs Example.node_b) "params:alpha"
  ∧ Azure.inputs
      (_construct_azure_command Example.json Example.generator
         Example.pipeline Example.node_b "run") !! "params_alpha"
    = Some Azure.Input_string.
Proof.
  assert (unshadowed (Node.inputs Example.node_b) "params:alpha") as Hun.
  { intros other [->| ->%list_elem_of_singleton]%elem_of_cons; [|done].
    by vm_compute. }
  split; [exact Hun|].
  exact (proj1 (proj2 (declarations_by_deciding_name Example.json
    Example.generator Example.pipeline Example.node_b "run"))
    "params:alpha" ltac:(right; left) Hun).
Defined.

(** ** Wiring follows the topological order *)



(** ** What the inputs of a wired step are bound to *)

Section Bindings.

Context {TS : Type}.
Variable json : RunnerConfig.KedroAzureRunnerConfig TS → string.
Variables (self : AzureMLPipelineGenerator TS) (pipeline : Pipeline.t)
  (run_id : string).





Lemma first_producer_exists candidates name :
  (∃ d, d ∈ candidates ∧ name ∈ Node.outputs d) →
  ∃ d, first_producer candidates name d.
Proof.
  intros (d & Hd & Hout).
  destruct (Py.next_or_none (λ d, Py.contains (Node.outputs d) name) candidates)
    as [d'|] eqn:E.
  - exists d'. by apply producer_found.
  - by destruct (proj1 (producer_missing _ _) E d Hd).
Qed.

End Bindings.

(** The pipeline with the two inputs [A] and [a] of node [N] is well formed:
    its node names are unique, its nodes are in topological order, and it
    meets the pipeline invariant. *)
Lemma shadowing_pipeline_unique_names :
  unique_names Example.shadowing_pipeline.
Proof. apply (bool_decide_unpack _). by vm_compute. Qed.

Lemma shadowing_pipeline_sorted :
  topologically_sorted Example.shadowing_pipeline.
Proof.
  intros [|x [|y [|z earlier]]] node later Heq d Hd; simplify_eq/=.
  - by apply elem_of_nil in Hd.
  - vm_compute in Hd. by apply list_elem_of_singleton in Hd as ->; left.
Qed.

Lemma shadowing_pipeline_single_producer :
  single_producer Example.shadowing_pipeline.
Proof.
  intros node name
    [->|[->|[]%elem_of_nil]%elem_of_cons]%elem_of_cons Hname.
  - by apply elem_of_nil in Hname.
  - apply elem_of_cons in Hname as [->| ->%list_elem_of_singleton].
    + left. split; [left|].
      intros m [->|[->|[]%elem_of_nil]%elem_of_cons]%elem_of_cons;
        by intros [= ]%list_elem_of_singleton.
    + right. split; [by intros [= ]%list_elem_of_singleton|].
      exists Example.producer. split_and!; [left | left |].
      intros m [->|[->|[]%elem_of_nil]%elem_of_cons]%elem_of_cons;
        [done | by intros [= ]%list_elem_of_singleton].
Qed.




(** ** The output resolver *)

Section Resolver.

Context {TS : Type}.
Variable json : RunnerConfig.KedroAzureRunnerConfig TS → string.
Variables (self : AzureMLPipelineGenerator TS) (pipeline : Pipeline.t)
  (run_id : string).

Abbreviation construct' := (_construct_azure_command json self pipeline).
Abbreviation commands' := (build_commands json self pipeline run_id).

(** Every step that the outer loop stores under a name is an invocation of
    the command stored under that name, and the loop stores a step for every
    node it processes. *)
Lemma connect_nodes_components todo acc res :
  connect_nodes pipeline commands' todo acc = Py.Ok res →
  (∀ k step, acc !! k = Some step →
             commands' !! k = Some (Azure.component step)) →
  (∀ k step, res !! k = Some step →
             commands' !! k = Some (Azure.component step))
  ∧ (∀ node, node ∈ todo → is_Some (res !! Node.name node))
  ∧ (∀ k, is_Some (acc !! k) → is_Some (res !! k)).
Proof.
  revert acc. induction todo as [|node todo IH]; intros acc Hrun Hacc.
  - injection Hrun as <-. split_and!; [done| |done].
    by intros ? ?%elem_of_nil.
  - cbn [connect_nodes] in Hrun.
    destruct (connect_inputs _ acc (Node.inputs node) ∅) as [azure_inputs|];
      [|done]. cbn [mbind Py.result_bind] in Hrun.
    unfold Py.getitem in Hrun.
    destruct (commands' !! Node.name node) as [cmd|] eqn:Hcmd; [|done].
    cbn [mbind Py.result_bind] in Hrun.
    apply IH in Hrun as (Hres & Htodo & Hkeep).
    + split_and!; [done| |].
      * intros n [->|?]%elem_of_cons; [|by apply Htodo].
        apply Hkeep. by rewrite lookup_insert_eq.
      * intros k Hk. apply Hkeep. rewrite lookup_insert.
        by case_decide.
    + intros k step. rewrite lookup_insert. case_decide; [|by apply Hacc].
      by intros [= <-]; subst k.
Qed.

Lemma connected_steps invoked node :
  unique_names pipeline →
  _connect_commands pipeline commands' = Py.Ok invoked →
  node ∈ Pipeline.nodes pipeline →
  ∃ step,
    invoked !! Node.name node = Some step
    ∧ Azure.component step = construct' node run_id.
Proof.
  intros Hnames Hrun Hnode.
  apply connect_nodes_components in Hrun as (Hres & Htodo & _);
    [|by intros ?? ?%lookup_empty_Some].
  destruct (Htodo node Hnode) as [step Hstep]. exists step. split; [done|].
  apply Hres in Hstep. rewrite build_commands_lookup in Hstep by done.
  by injection Hstep.
Qed.

Section Gather.

Variable invoked : gmap string Azure.Invoked.
Hypothesis Hsteps :
  ∀ node, node ∈ Pipeline.nodes pipeline →
    ∃ step,
      invoked !! Node.name node = Some step
      ∧ Azure.component step = construct' node run_id.

Lemma resolved_step producer name :
  first_producer (Pipeline.nodes pipeline) name producer →
  ∃ step,
    invoked !! Node.name producer = Some step
    ∧ Azure.step_outputs step !! _sanitize_param_name name
      = Some (output_handle producer name).
Proof.
  intros [Hin Hout]%first_producer_elem.
  destruct (Hsteps producer Hin) as (step & Hstep & Hcomp).
  exists step. split; [done|].
  by rewrite step_outputs_lookup, Hcomp, declared_output.
Qed.

(** One turn of the loop for an output that some node produces. *)
Lemma gather_outputs_step name producer todo acc :
  first_producer (Pipeline.nodes pipeline) name producer →
  gather_outputs pipeline invoked (name :: todo) acc
  = gather_outputs pipeline invoked todo
      (<[_sanitize_param_name name := output_handle producer name]> acc).
Proof.
  intros Hp. destruct (resolved_step _ _ Hp) as (step & Hstep & Hout).
  cbn [gather_outputs]. rewrite (proj2 (producer_found _ _ _) Hp).
  unfold Py.getitem. rewrite Hstep. cbn [mbind Py.result_bind].
  by rewrite Hout.
Qed.

Lemma gather_outputs_ok todo acc :
  (∀ o, o ∈ todo →
        ∃ n, n ∈ Pipeline.nodes pipeline ∧ o ∈ Node.outputs n) →
  ∃ res,
    gather_outputs pipeline invoked todo acc = Py.Ok res
    ∧ ∀ k, res !! k
           = match deciding_name todo k with
             | Some o => resolved_handle pipeline o
             | None => acc !! k
             end.
Proof.
  revert acc. induction todo as [|o todo IH]; intros acc Hprod.
  - by exists acc.
  - destruct (first_producer_exists (Pipeline.nodes pipeline) o) as [n Hn];
      [apply Hprod; left|].
    rewrite (gather_outputs_step _ n) by done.
    destruct (IH (<[_sanitize_param_name o := output_handle n o]> acc))
      as (res & Hres & Hlook); [intros; apply Hprod; by right|].
    exists res. split; [done|]. intros k. rewrite Hlook.
    unfold deciding_name. rewrite filter_cons.
    destruct (decide (_sanitize_param_name o = k)) as [<-|Hne].
    + rewrite last_cons. destruct (last _); [done|].
      rewrite lookup_insert_eq. unfold resolved_handle.
      by rewrite (proj2 (producer_found _ _ _) Hn).
    + destruct (last _); [done|]. by rewrite lookup_insert_ne.
Qed.

Lemma gather_outputs_refused resolved name rest acc :
  (∀ o, o ∈ resolved →
        ∃ n, n ∈ Pipeline.nodes pipeline ∧ o ∈ Node.outputs n) →
  (∀ n, n ∈ Pipeline.nodes pipeline → name ∉ Node.outputs n) →
  gather_outputs pipeline invoked (resolved ++ name :: rest) acc
  = Py.Raise (Py.ValueError (no_producer_message name)).
Proof.
  intros Hprod Hnone. revert acc Hprod.
  induction resolved as [|o resolved IH]; intros acc Hprod.
  - cbn [app gather_outputs].
    by rewrite (proj2 (producer_missing _ _) Hnone).
  - destruct (first_producer_exists (Pipeline.nodes pipeline) o) as [n Hn];
      [apply Hprod; left|].
    rewrite <-app_comm_cons, (gather_outputs_step _ n) by done.
    apply IH. intros. apply Hprod. by right.
Qed.

End Gather.

End Resolver.

(** The pipeline with the two outputs [A] and [a] is well formed. *)
Lemma clashing_pipeline_unique_names :
  unique_names Example.clashing_pipeline.
Proof. apply (bool_decide_unpack _). by vm_compute. Qed.

Lemma clashing_pipeline_sorted :
  topologically_sorted Example.clashing_pipeline.
Proof. by intros earlier node later _ d ?%elem_of_nil. Qed.

(** C2, as stated, fails when two declared pipeline outputs have the same
    sanitized name: [U] alone produces [A] and [L] alone produces [a]; the
    resolver returns the single entry [a], the output handle of the step of
    [L], so nothing maps to the output handle of the step of [U]. *)
Lemma resolver_counterexample :
  ¬ (∀ invoked resolved name producer step,
       _connect_commands Example.clashing_pipeline
         (build_commands Example.json Example.generator
            Example.clashing_pipeline "run")
       = Py.Ok invoked →
       _gather_pipeline_outputs Example.clashing_pipeline invoked
       = Py.Ok resolved →
       name ∈ Pipeline.outputs Example.clashing_pipeline →
       producer ∈ Pipeline.nodes Example.clashing_pipeline →
       name ∈ Node.outputs producer →
       (∀ m, m ∈ Pipeline.nodes Example.clashing_pipeline →
             name ∈ Node.outputs m → m = producer) →
       invoked !! Node.name producer = Some step →
       resolved !! _sanitize_param_name name
       = Azure.step_outputs step !! _sanitize_param_name name).
Proof.
  intros H.
  destruct (_connect_commands Example.clashing_pipeline
              (build_commands Example.json Example.generator
                 Example.clashing_pipeline "run"))
    as [invoked|] eqn:Hrun; [|by vm_compute in Hrun].
  destruct (_gather_pipeline_outputs Example.clashing_pipeline invoked)
    as [resolved|] eqn:Hgather;
    [|revert Hgather; injection Hrun as <-; by vm_compute].
  destruct (invoked !! Node.name Example.upper) as [step|] eqn:Hstep;
    [|revert Hstep; injection Hrun as <-; by vm_compute].
  specialize (H invoked resolved "A" Example.upper step eq_refl Hgather
                ltac:(left) ltac:(left) ltac:(left)).
  assert (resolved !! _sanitize_param_name "A"
          ≠ Azure.step_outputs step !! _sanitize_param_name "A") as Hne.
  { revert Hgather Hstep. injection Hrun as <-. vm_compute.
    intros [= <-] [= <-]. discriminate. }
  apply Hne, H, Hstep.
  intros m [->|[->|[]%elem_of_nil]%elem_of_cons]%elem_of_cons; [done|].
  by intros [= ]%list_elem_of_singleton.
Qed.

(** C2, amended. Given the steps that the wiring returned, the resolver
    raises a [ValueError] naming the first declared pipeline output that no
    node lists among its outputs; when every declared output has a
    producer, it returns a mapping that holds an entry under the sanitized
    name of every declared output, namely the output handle, for that
    sanitized name, of the step of the first node that produces the last
    declared output with that sanitized name. So a declared output whose
    sanitized name no other declared output shares is mapped to the output
    handle of the step of its own producer. *)
Theorem outputs_resolved_or_refused {TS}
    (json : RunnerConfig.KedroAzureRunnerConfig TS → string)
    (self : AzureMLPipelineGenerator TS) pipeline run_id invoked :
  unique_names pipeline →
  _connect_commands pipeline (build_commands json self pipeline run_id)
  = Py.Ok invoked →
  (∀ resolved name rest,
     Pipeline.outputs pipeline = resolved ++ name :: rest →
     (∀ o, o ∈ resolved →
           ∃ n, n ∈ Pipeline.nodes pipeline ∧ o ∈ Node.outputs n) →
     (∀ n, n ∈ Pipeline.nodes pipeline → name ∉ Node.outputs n) →
     _gather_pipeline_outputs pipeline invoked
     = Py.Raise
         (Py.ValueError
            ("There is no node which outputs `" +:+ name +:+ "` dataset")))
  ∧ ((∀ o, o ∈ Pipeline.outputs pipeline →
           ∃ n, n ∈ Pipeline.nodes pipeline ∧ o ∈ Node.outputs n) →
     ∃ resolved,
       _gather_pipeline_outputs pipeline invoked = Py.Ok resolved
       ∧ (∀ name, name ∈ Pipeline.outputs pipeline →
            ∃ deciding producer step,
              deciding_name (Pipeline.outputs pipeline)
                (_sanitize_param_name name) = Some deciding
              ∧ first_producer (Pipeline.nodes pipeline) deciding producer
              ∧ invoked !! Node.name producer = Some step
              ∧ Azure.step_outputs step !! _sanitize_param_name name
                = Some (output_handle producer deciding)
              ∧ resolved !! _sanitize_param_name name
                = Some (output_handle producer deciding))
       ∧ (∀ name producer,
            name ∈ Pipeline.outputs pipeline →
            unshadowed (Pipeline.outputs pipeline) name →
            first_producer (Pipeline.nodes pipeline) name producer →
            ∃ step,
              invoked !! Node.name producer = Some step
              ∧ Azure.step_outputs step !! _sanitize_param_name name
                = Some (output_handle producer name)
              ∧ resolved !! _sanitize_param_name name
                = Some (output_handle producer name))).
Proof.
  intros Hnames Hrun.
  pose proof (λ node, connected_steps json self pipeline run_id invoked node
                        Hnames Hrun) as Hsteps.
  split.
  - intros resolved name rest Houts Hprod Hnone.
    unfold _gather_pipeline_outputs. rewrite Houts.
    by apply (gather_outputs_refused json self pipeline run_id invoked Hsteps).
  - intros Hprod.
    destruct (gather_outputs_ok json self pipeline run_id invoked Hsteps
                (Pipeline.outputs pipeline) ∅ Hprod) as (resolved & Hres & Hlook).
    exists resolved. split; [exact Hres|].
    assert (∀ name producer,
      deciding_name (Pipeline.outputs pipeline) (_sanitize_param_name name)
      = Some name →
      first_producer (Pipeline.nodes pipeline) name producer →
      resolved !! _sanitize_param_name name
      = Some (output_handle producer name)) as Hown.
    { intros name producer Hd Hp. rewrite Hlook, Hd. unfold resolved_handle.
      by rewrite (proj2 (producer_found _ _ _) Hp). }
    split.
    + intros name [deciding Hd]%deciding_name_elem.
      destruct (deciding_name_Some _ _ _ Hd) as [Hin Hsame].
      destruct (first_producer_exists (Pipeline.nodes pipeline) deciding)
        as [producer Hp]; [by apply Hprod|].
      destruct (resolved_step json self pipeline run_id invoked Hsteps
                  producer deciding Hp) as (step & Hstep & Hout).
      exists deciding, producer, step.
      split_and!; [done..| |].
      * by rewrite <-Hsame.
      * rewrite <-Hsame. apply Hown; [|done]. by rewrite Hsame.
    + intros name producer Hin Hun Hp.
      destruct (resolved_step json self pipeline run_id invoked Hsteps
                  producer name Hp) as (step & Hstep & Hout).
      exists step. split_and!; [done..|].
      apply Hown; [|done]. by apply deciding_name_unshadowed.
Qed.

Lemma example_wiring (pipeline : Pipeline.t) :
  unique_names pipeline → topologically_sorted pipeline →
  _connect_commands pipeline
    (build_commands Example.json Example.generator pipeline "run")
  = Py.Ok (wired_steps Example.json Example.generator pipeline "run"
             (Pipeline.nodes pipeline)).
Proof. apply connect_commands_closed. Qed.

(** Instances of the amended C2 on the pipeline [A -> B]: its output [clean]
    is resolved to the output handle of the step of [B]; and when it also
    declares the output [missing], which no node produces, the resolver
    raises the error that names [missing]. *)
Lemma outputs_resolved_or_refused_witness :
  unique_names Example.pipeline
  ∧ (∃ invoked resolved,
       _connect_commands Example.pipeline
         (build_commands Example.json Example.generator Example.pipeline "run")
       = Py.Ok invoked
       ∧ _gather_pipeline_outputs Example.pipeline invoked = Py.Ok resolved
       ∧ resolved !! "clean"
         = Some {| Azure.owner := "B"; Azure.port := "clean" |})
  ∧ (∃ invoked,
       _connect_commands Example.pipeline_missing_output
         (build_commands Example.json Example.generator
            Example.pipeline_missing_output "run")
       = Py.Ok invoked
       ∧ _gather_pipeline_outputs Example.pipeline_missing_output invoked
         = Py.Raise
             (Py.ValueError "There is no node which outputs `missing` dataset")).
Proof.
  split; [exact pipeline_unique_names|]. split.
  - pose proof (example_wiring Example.pipeline pipeline_unique_names
                  pipeline_sorted) as Hrun.
    destruct (proj2 (outputs_resolved_or_refused Example.json
                Example.generator Example.pipeline "run" _
                pipeline_unique_names Hrun))
      as (resolved & Hres & _ & Hown).
    { intros o ->%list_elem_of_singleton. exists Example.node_b.
      split; [right; left | left]. }
    destruct (Hown "clean" Example.node_b) as (step & _ & _ & Hclean).
    + left.
    + intros other ->%list_elem_of_singleton _. reflexivity.
    + exists [Example.node_a], []. split; [reflexivity|]. split; [left|].
      intros d' ->%list_elem_of_singleton [= ]%list_elem_of_singleton.
    + eexists _, resolved. split; [exact Hrun|]. split; [exact Hres|].
      exact Hclean.
  - pose proof (example_wiring Example.pipeline_missing_output
                  pipeline_unique_names pipeline_sorted) as Hrun.
    eexists. split; [exact Hrun|].
    apply (proj1 (outputs_resolved_or_refused Example.json Example.generator
                    Example.pipeline_missing_output "run" _
                    pipeline_unique_names Hrun) ["clean"] "missing" []).
    + reflexivity.
    + intros o ->%list_elem_of_singleton. exists Example.node_b.
      split; [right; left | left].
    + intros n [->|[->|[]%elem_of_nil]%elem_of_cons]%elem_of_cons;
        intros Hin; vm_compute in Hin;
        repeat (apply elem_of_cons in Hin as [Hin|Hin]; [discriminate|]);
        by apply elem_of_nil in Hin.
Defined.

(** An instance of C4: the lowering with the configured image and the
    lowering with an image given on the command line build the same command
    string and the same run-context payload for node [B]. *)
Lemma lowering_deterministic_witness :
  Azure.command
    (_construct_azure_command Example.json Example.generator
       Example.pipeline Example.node_b "run")
  = Azure.command
      (_construct_azure_command Example.json Example.generator_with_image
         Example.pipeline Example.node_b "run")
  ∧ Azure.environment_variables
      (_construct_azure_command Example.json Example.generator
         Example.pipeline Example.node_b "run")
    = Azure.environment_variables
        (_construct_azure_command Example.json Example.generator_with_image
           Example.pipeline Example.node_b "run").
Proof.
  exact (proj1 (lowering_deterministic Example.json Example.generator
                  Example.generator_with_image Example.pipeline "run" "run"
                  eq_refl eq_refl eq_refl eq_refl eq_refl)
           Example.node_b).
Defined.

(** ** The scenarios of the specification *)

(** Node [A] has no input; the input [raw] of node [B] is bound to the
    output handle [raw] of the step of [A], and its parameter to the raw
    dataset name. *)
Example wiring_of_example_pipeline :
  match
    _connect_commands Example.pipeline
      (build_commands Example.json Example.generator Example.pipeline "run")
  with
  | Py.Ok invoked =>
      Some (Azure.bound_inputs <$> invoked !! "A",
            invoked !! "B" ≫= λ step, Azure.bound_inputs step !! "raw",
            invoked !! "B" ≫= λ step, Azure.bound_inputs step !! "params_alpha")
  | Py.Raise _ => None
  end
  = Some (Some ∅,
          Some (Azure.Bound_output {| Azure.owner := "A"; Azure.port := "raw" |}),
          Some (Azure.Bound_str "params:alpha")).
Proof. by vm_compute. Qed.

(** The pipeline output [clean] is resolved to the output handle [clean] of
    the step of [B]. *)
Example lowering_of_example_pipeline :
  match
    kedro_azure_pipeline_fn Example.json Example.generator Example.pipeline
      "run"
  with
  | Py.Ok resolved => resolved !! "clean"
  | Py.Raise _ => None
  end
  = Some {| Azure.owner := "B"; Azure.port := "clean" |}.
Proof. by vm_compute. Qed.

(** A declared output without producer makes the lowering fail. *)
Example lowering_refuses_missing_output :
  kedro_azure_pipeline_fn Example.json Example.generator
    Example.pipeline_missing_output "run"
  = Py.Raise (Py.ValueError "There is no node which outputs `missing` dataset").
Proof. by vm_compute. Qed.

(** The command of node [B]. *)
Example command_of_node_b :
  _prepare_command Example.generator Example.node_b
  = "cd /home/kedro && kedro run -e local --pipeline=__default__ --node=B --runner=kedroazureml.azurerunner.AzurePipelinesRunner && echo 'Show must go on!' > ${{outputs.clean}}/output.txt".
Proof. reflexivity. Qed.

(** * Further properties *)

(** ** The sanitizers ignore letter case *)

Section Case.

Lemma lower_char_idempotent c :
  Py.lower_char (Py.lower_char c) = Py.lower_char c.
Proof. destruct c as [[] [] [] [] [] [] [] []]; reflexivity. Qed.

Lemma lower_idempotent s : Py.lower (Py.lower s) = Py.lower s.
Proof.
  induction s as [|c s IH]; [reflexivity|]. cbn.
  by rewrite lower_char_idempotent, IH.
Qed.

Lemma all_chars_app p (a b : string) :
  Py.all_chars p (a +:+ b) = Py.all_chars p a && Py.all_chars p b.
Proof.
  induction a as [|c a IH]; [reflexivity|].
  rewrite string_app_cons. cbn. by rewrite IH, andb_assoc.
Qed.

(** A character that [_sanitize_azure_name] leaves as it is. *)
Definition azure_fixed (c : ascii) : bool :=
  Ascii.eqb (Py.lower_char c) c && negb (Ascii.eqb c ".").

Lemma azure_name_chars_fixed c :
  Py.all_chars azure_fixed (azure_name_chars c) = true.
Proof.
  unfold azure_name_chars. destruct (Ascii.eqb c ".") eqn:E; [reflexivity|].
  cbn. unfold azure_fixed.
  by rewrite lower_char_idempotent, Ascii.eqb_refl, lower_char_dot, E.
Qed.

Lemma sanitize_azure_fixed s :
  Py.all_chars azure_fixed (_sanitize_azure_name s) = true.
Proof.
  induction s as [|c s IH]; [reflexivity|].
  by rewrite sanitize_azure_cons, all_chars_app, azure_name_chars_fixed, IH.
Qed.

Lemma sanitize_azure_fixes s :
  Py.all_chars azure_fixed s = true → _sanitize_azure_name s = s.
Proof.
  induction s as [|c s IH]; [reflexivity|]. cbn [Py.all_chars].
  intros [[Hc Hdot%negb_true_iff]%andb_true_iff Hs]%andb_true_iff.
  rewrite sanitize_azure_cons, IH by exact Hs.
  unfold azure_name_chars. rewrite Hdot.
  by apply Ascii.eqb_eq in Hc as ->.
Qed.

Lemma all_chars_weaken (p q : ascii → bool) s :
  (∀ c, p c = true → q c = true) →
  Py.all_chars p s = true → Py.all_chars q s = true.
Proof.
  intros Hpq. induction s as [|c s IH]; [done|]. cbn.
  intros [Hc Hs]%andb_true_iff. by rewrite (Hpq c Hc), IH.
Qed.

End Case.

(** X1. Both sanitizers ignore letter case: a name and its lower-cased form
    get the same parameter name and the same step identifier, so names that
    differ only in case are not told apart. *)
Theorem sanitizers_ignore_case (name : string) :
  _sanitize_param_name (Py.lower name) = _sanitize_param_name name
  ∧ _sanitize_azure_name (Py.lower name) = _sanitize_azure_name name.
Proof.
  unfold _sanitize_param_name, _sanitize_azure_name.
  by rewrite lower_idempotent.
Qed.

(** X2. [_sanitize_azure_name] is idempotent, and its result holds no
    ['.']. *)
Theorem sanitize_azure_name_idempotent (name : string) :
  _sanitize_azure_name (_sanitize_azure_name name) = _sanitize_azure_name name
  ∧ Py.all_chars (λ c, negb (Ascii.eqb c ".")) (_sanitize_azure_name name)
    = true.
Proof.
  split.
  - apply sanitize_azure_fixes, sanitize_azure_fixed.
  - apply (all_chars_weaken azure_fixed); [|apply sanitize_azure_fixed].
    unfold azure_fixed. by intros c [_ ?]%andb_true_iff.
Qed.

(** ** Invariants of the wiring *)

#[local] Set Warnings "-clear-no-such-hyp".

Section Wiring_invariants.

Context {TS : Type}.
Variable json : RunnerConfig.KedroAzureRunnerConfig TS → string.
Variables (self : AzureMLPipelineGenerator TS) (pipeline : Pipeline.t)
  (run_id : string).

Lemma connect_inputs_app dependencies invoked inputs1 inputs2 azure_inputs :
  connect_inputs dependencies invoked (inputs1 ++ inputs2) azure_inputs
  = connect_inputs dependencies invoked inputs1 azure_inputs
    ≫= connect_inputs dependencies invoked inputs2.
Proof.
  revert azure_inputs.
  induction inputs1 as [|name inputs1 IH]; intros azure_inputs; [done|].
  cbn [app connect_inputs].
  destruct (Py.next_or_none _ dependencies) as [d|]; [|apply IH].
  destruct (Py.getitem invoked (Node.name d)) as [parent|]; [|done].
  cbn [mbind Py.result_bind].
  destruct (Py.getitem (Azure.step_outputs parent) _) as [handle|]; [|done].
  apply IH.
Qed.

Lemma connect_nodes_app commands nodes1 nodes2 invoked :
  connect_nodes pipeline commands (nodes1 ++ nodes2) invoked
  = connect_nodes pipeline commands nodes1 invoked
    ≫= connect_nodes pipeline commands nodes2.
Proof.
  revert invoked.
  induction nodes1 as [|node nodes1 IH]; intros invoked; [done|].
  cbn [app connect_nodes].
  destruct (connect_inputs _ invoked (Node.inputs node) ∅) as [bound|];
    [|done]. cbn [mbind Py.result_bind].
  destruct (Py.getitem commands (Node.name node)) as [cmd|]; [|done].
  apply IH.
Qed.

Lemma connect_inputs_dom dependencies invoked inputs azure_inputs bound :
  connect_inputs dependencies invoked inputs azure_inputs = Py.Ok bound →
  dom bound
  = dom azure_inputs ∪ list_to_set (_sanitize_param_name <$> inputs).
Proof.
  revert azure_inputs.
  induction inputs as [|name inputs IH]; intros azure_inputs Hrun.
  - injection Hrun as <-. set_solver.
  - cbn [connect_inputs] in Hrun.
    destruct (Py.next_or_none _ dependencies) as [d|].
    + destruct (Py.getitem invoked (Node.name d)) as [parent|]; [|done].
      cbn [mbind Py.result_bind] in Hrun.
      destruct (Py.getitem (Azure.step_outputs parent) _) as [handle|];
        [|done].
      apply IH in Hrun as ->. rewrite dom_insert_L, fmap_cons. set_solver.
    + apply IH in Hrun as ->. rewrite dom_insert_L, fmap_cons. set_solver.
Qed.

Lemma connect_nodes_dom commands todo invoked result :
  connect_nodes pipeline commands todo invoked = Py.Ok result →
  dom result = dom invoked ∪ list_to_set (Node.name <$> todo).
Proof.
  revert invoked. induction todo as [|node todo IH]; intros invoked Hrun.
  - injection Hrun as <-. set_solver.
  - cbn [connect_nodes] in Hrun.
    destruct (connect_inputs _ invoked (Node.inputs node) ∅) as [bound|];
      [|done]. cbn [mbind Py.result_bind] in Hrun.
    destruct (Py.getitem commands (Node.name node)) as [cmd|]; [|done].
    apply IH in Hrun as ->. rewrite dom_insert_L, fmap_cons. set_solver.
Qed.

(** A property of steps that every turn of the outer loop establishes for
    the step it stores holds of every step of the result. *)
Lemma connect_nodes_invariant (P : string → Azure.Invoked → Prop)
    commands todo invoked result :
  connect_nodes pipeline commands todo invoked = Py.Ok result →
  (∀ k step, invoked !! k = Some step → P k step) →
  (∀ node before bound cmd,
     node ∈ todo →
     connect_inputs (Pipeline.node_dependencies pipeline node) before
       (Node.inputs node) ∅ = Py.Ok bound →
     commands !! Node.name node = Some cmd →
     P (Node.name node) (Azure.invoke cmd bound)) →
  ∀ k step, result !! k = Some step → P k step.
Proof.
  revert invoked.
  induction todo as [|node todo IH]; intros invoked Hrun Hinv Hturn.
  - by injection Hrun as <-.
  - cbn [connect_nodes] in Hrun.
    destruct (connect_inputs _ invoked (Node.inputs node) ∅) as [bound|]
      eqn:Hbound; [|done]. cbn [mbind Py.result_bind] in Hrun.
    unfold Py.getitem in Hrun.
    destruct (commands !! Node.name node) as [cmd|] eqn:Hcmd; [|done].
    apply (IH _ Hrun).
    + intros k step. rewrite lookup_insert. case_decide; [|by apply Hinv].
      intros [= <-]. subst k. apply (Hturn node invoked); [left|done..].
    + intros n before b c Hn. apply Hturn. by right.
Qed.

Lemma build_commands_Some k cmd :
  build_commands json self pipeline run_id !! k = Some cmd →
  ∃ node,
    node ∈ Pipeline.nodes pipeline ∧ Node.name node = k
    ∧ cmd = _construct_azure_command json self pipeline node run_id.
Proof.
  unfold build_commands. rewrite (dict_of_items_lookup Node.name).
  intros (node & Hlast & ->)%fmap_Some.
  apply last_Some_elem_of, list_elem_of_filter in Hlast as [??]. eauto.
Qed.

End Wiring_invariants.

(** X3. When the wiring reaches an input whose producing dependency has not
    been wired yet, because the dependency does not stand before the node,
    it fails with a [KeyError] for the name of that dependency. *)
Theorem wiring_refuses_unwired_dependency {TS}
    (json : RunnerConfig.KedroAzureRunnerConfig TS → string)
    (self : AzureMLPipelineGenerator TS) pipeline run_id
    earlier node later before resolved name rest bound d :
  Pipeline.nodes pipeline = earlier ++ node :: later →
  connect_nodes pipeline (build_commands json self pipeline run_id) earlier ∅
  = Py.Ok before →
  Node.inputs node = resolved ++ name :: rest →
  connect_inputs (Pipeline.node_dependencies pipeline node) before resolved ∅
  = Py.Ok bound →
  first_producer (Pipeline.node_dependencies pipeline node) name d →
  Node.name d ∉ Node.name <$> earlier →
  _connect_commands pipeline (build_commands json self pipeline run_id)
  = Py.Raise (Py.KeyError (Node.name d)).
Proof.
  intros Hnodes Hbefore Hinputs Hresolved Hd Hname.
  assert (before !! Node.name d = None) as Hunwired.
  { apply not_elem_of_dom. rewrite (connect_nodes_dom _ _ _ _ _ Hbefore).
    rewrite dom_empty_L, elem_of_union, elem_of_list_to_set.
    intros [[]%elem_of_empty|?]. done. }
  unfold _connect_commands.
  rewrite Hnodes, connect_nodes_app, Hbefore. cbn [mbind Py.result_bind].
  cbn [connect_nodes].
  rewrite Hinputs, connect_inputs_app, Hresolved. cbn [mbind Py.result_bind].
  cbn [connect_inputs]. rewrite (proj2 (producer_found _ _ _) Hd).
  unfold Py.getitem. by rewrite Hunwired.
Qed.

(** An instance of X3: with [B] before [A], the wiring fails on the input
    [raw] of [B] with the [KeyError] for [A]. *)
Lemma wiring_refuses_unwired_dependency_witness :
  _connect_commands Example_more.unsorted_pipeline
    (build_commands Example.json Example.generator
       Example_more.unsorted_pipeline "run")
  = Py.Raise (Py.KeyError "A").
Proof.
  apply (wiring_refuses_unwired_dependency Example.json Example.generator
           Example_more.unsorted_pipeline "run"
           [] Example.node_b [Example.node_a] ∅
           [] "raw" ["params:alpha"] ∅ Example.node_a).
  - reflexivity.
  - reflexivity.
  - reflexivity.
  - reflexivity.
  - exists [], []. split; [reflexivity|]. split; [left|].
    intros d' []%elem_of_nil.
  - intros []%elem_of_nil.
Defined.

(** X4. Whenever the wiring succeeds on a pipeline with unique node names,
    it holds one step per node, under the node's name; the step of a node
    is the invocation of the command built for that node, and the keyword
    arguments it was invoked with are exactly the inputs that the command
    declares. *)
Theorem wired_steps_match_commands {TS}
    (json : RunnerConfig.KedroAzureRunnerConfig TS → string)
    (self : AzureMLPipelineGenerator TS) pipeline run_id invoked :
  unique_names pipeline →
  _connect_commands pipeline (build_commands json self pipeline run_id)
  = Py.Ok invoked →
  dom invoked = list_to_set (Node.name <$> Pipeline.nodes pipeline)
  ∧ ∀ node, node ∈ Pipeline.nodes pipeline →
      ∃ step,
        invoked !! Node.name node = Some step
        ∧ Azure.component step
          = _construct_azure_command json self pipeline node run_id
        ∧ dom (Azure.bound_inputs step)
          = dom (Azure.inputs (Azure.component step)).
Proof.
  intros Hnames Hrun. split.
  { rewrite (connect_nodes_dom _ _ _ _ _ Hrun), dom_empty_L.
    by rewrite (left_id_L ∅ (∪)). }
  intros node Hnode.
  destruct (connected_steps json self pipeline run_id invoked node
              Hnames Hrun Hnode) as (step & Hstep & Hcomp).
  exists step. split_and!; [done..|].
  rewrite Hcomp. cbn [Azure.inputs _construct_azure_command].
  rewrite (dict_of_items_dom _sanitize_param_name).
  refine (connect_nodes_invariant pipeline
    (λ k step, ∀ node, node ∈ Pipeline.nodes pipeline → Node.name node = k →
       dom (Azure.bound_inputs step)
       = list_to_set (_sanitize_param_name <$> Node.inputs node))
    _ _ _ _ Hrun _ _ (Node.name node) step Hstep node Hnode eq_refl).
  - intros k s Hk. by rewrite lookup_empty in Hk.
  - intros n before bound cmd Hn Hbound _ m Hm Hsame.
    rewrite (NoDup_key_inj Node.name _ n m Hnames Hn Hm Hsame).
    cbn [Azure.bound_inputs Azure.invoke].
    rewrite (connect_inputs_dom _ _ _ _ _ Hbound), dom_empty_L.
    by rewrite (left_id_L ∅ (∪)).
Qed.

(** An instance of X4 on the pipeline [A -> B]. *)
Lemma wired_steps_match_commands_witness :
  unique_names Example.pipeline
  ∧ ∃ invoked : gmap string Azure.Invoked,
      _connect_commands Example.pipeline
        (build_commands Example.json Example.generator Example.pipeline "run")
      = Py.Ok invoked
      ∧ dom invoked = list_to_set ["A"; "B"].
Proof.
  split; [exact pipeline_unique_names|].
  pose proof (example_wiring Example.pipeline pipeline_unique_names
                pipeline_sorted) as Hrun.
  eexists. split; [exact Hrun|].
  exact (proj1 (wired_steps_match_commands Example.json Example.generator
                  Example.pipeline "run" _ pipeline_unique_names Hrun)).
Defined.

(** X5. All steps of one successful wiring carry the same environment:
    one variable, [KEDRO_AZURE_RUNNER_CONFIG], with the same run-context
    payload, and the same container image. *)
Theorem steps_share_run_context {TS}
    (json : RunnerConfig.KedroAzureRunnerConfig TS → string)
    (self : AzureMLPipelineGenerator TS) pipeline run_id invoked :
  _connect_commands pipeline (build_commands json self pipeline run_id)
  = Py.Ok invoked →
  ∀ k1 step1 k2 step2,
    invoked !! k1 = Some step1 → invoked !! k2 = Some step2 →
    Azure.environment_variables (Azure.component step1)
    = Azure.environment_variables (Azure.component step2)
    ∧ dom (Azure.environment_variables (Azure.component step1))
      = {[ "KEDRO_AZURE_RUNNER_CONFIG" ]}
    ∧ Azure.environment (Azure.component step1)
      = Azure.environment (Azure.component step2).
Proof.
  intros Hrun.
  assert (∀ k step, invoked !! k = Some step →
    ∃ node, Azure.component step
            = _construct_azure_command json self pipeline node run_id)
    as Hbuilt.
  { apply (connect_nodes_invariant pipeline
             (λ _ step, ∃ node, Azure.component step
                = _construct_azure_command json self pipeline node run_id)
             _ _ _ _ Hrun).
    - intros k s Hk. by rewrite lookup_empty in Hk.
    - intros n before bound cmd _ _ (m & _ & _ & ->)%build_commands_Some.
      by exists m. }
  intros k1 step1 k2 step2 [n1 ->]%Hbuilt [n2 ->]%Hbuilt.
  split_and!; [done| |done].
  cbn [Azure.environment_variables _construct_azure_command].
  apply dom_singleton_L.
Qed.

(** An instance of X5 on the pipeline [A -> B]. *)
Lemma steps_share_run_context_witness :
  ∃ invoked step_a step_b,
    _connect_commands Example.pipeline
      (build_commands Example.json Example.generator Example.pipeline "run")
    = Py.Ok invoked
    ∧ invoked !! "A" = Some step_a ∧ invoked !! "B" = Some step_b
    ∧ Azure.environment_variables (Azure.component step_a)
      = Azure.environment_variables (Azure.component step_b).
Proof.
  pose proof (example_wiring Example.pipeline pipeline_unique_names
                pipeline_sorted) as Hrun.
  assert (∀ node, node ∈ Pipeline.nodes Example.pipeline →
    wired_steps Example.json Example.generator Example.pipeline "run"
      (Pipeline.nodes Example.pipeline) !! Node.name node
    = Some (wired_step Example.json Example.generator Example.pipeline "run"
              node)) as Hlookup.
  { intros node. apply wired_steps_lookup. exact pipeline_unique_names. }
  pose proof (Hlookup Example.node_a ltac:(left)) as Ha.
  pose proof (Hlookup Example.node_b ltac:(right; left)) as Hb.
  eexists _, _, _. split; [exact Hrun|]. split; [exact Ha|].
  split; [exact Hb|].
  exact (proj1 (steps_share_run_context Example.json Example.generator
                  Example.pipeline "run" _ Hrun "A" _ "B" _ Ha Hb)).
Defined.

(** ** Declared types and bindings agree *)




(** ** The lowering as a whole ([kedro_azure_pipeline_fn]) *)

(** Either every output of a list has a producer among the nodes, or there is
    a first one that has none. *)
Lemma outputs_split (nodes : list Node.t) (outs : list string) :
  (∀ o, o ∈ outs → ∃ n, n ∈ nodes ∧ o ∈ Node.outputs n)
  ∨ ∃ resolved name rest,
      outs = resolved ++ name :: rest
      ∧ (∀ o, o ∈ resolved → ∃ n, n ∈ nodes ∧ o ∈ Node.outputs n)
      ∧ (∀ n, n ∈ nodes → name ∉ Node.outputs n).
Proof.
  induction outs as [|o outs IH].
  - left. by intros ? ?%elem_of_nil.
  - destruct (Py.next_or_none (λ n, Py.contains (Node.outputs n) o) nodes)
      as [n|] eqn:Hfind.
    + apply producer_found, first_producer_elem in Hfind as [Hn Hout].
      destruct IH as [Hall | (resolved & name & rest & -> & Hres & Hnone)].
      * left. intros o' [->|?]%elem_of_cons; eauto.
      * right. exists (o :: resolved), name, rest. split_and!; [done| |done].
        intros o' [->|?]%elem_of_cons; eauto.
    + right. exists [], o, outs. split_and!; [done| |].
      * by intros ? ?%elem_of_nil.
      * by apply producer_missing.
Qed.

Section Lowering.

Context {TS : Type}.
Variable json : RunnerConfig.KedroAzureRunnerConfig TS → string.
Variables (self : AzureMLPipelineGenerator TS) (pipeline : Pipeline.t)
  (run_id : string).
Hypothesis Hnames : unique_names pipeline.
Hypothesis Hsorted : topologically_sorted pipeline.

Lemma lowering_closed :
  kedro_azure_pipeline_fn json self pipeline run_id
  = _gather_pipeline_outputs pipeline
      (wired_steps json self pipeline run_id (Pipeline.nodes pipeline)).
Proof.
  unfold kedro_azure_pipeline_fn. by rewrite connect_commands_closed.
Qed.

Lemma wired_steps_components node :
  node ∈ Pipeline.nodes pipeline →
  ∃ step,
    wired_steps json self pipeline run_id (Pipeline.nodes pipeline)
      !! Node.name node = Some step
    ∧ Azure.component step
      = _construct_azure_command json self pipeline node run_id.
Proof.
  intros Hnode. exists (wired_step json self pipeline run_id node).
  split; [by apply wired_steps_lookup | done].
Qed.

Lemma lowering_ok :
  (∀ o, o ∈ Pipeline.outputs pipeline →
        ∃ n, n ∈ Pipeline.nodes pipeline ∧ o ∈ Node.outputs n) →
  ∃ resolved,
    kedro_azure_pipeline_fn json self pipeline run_id = Py.Ok resolved
    ∧ ∀ k, resolved !! k
           = deciding_name (Pipeline.outputs pipeline) k
             ≫= resolved_handle pipeline.
Proof.
  intros Hprod. rewrite lowering_closed.
  destruct (gather_outputs_ok json self pipeline run_id _
              wired_steps_components (Pipeline.outputs pipeline) ∅ Hprod)
    as (resolved & Hres & Hlook).
  exists resolved. split; [exact Hres|]. intros k. rewrite Hlook.
  by destruct (deciding_name _ k).
Qed.

Lemma lowering_refused resolved name rest :
  Pipeline.outputs pipeline = resolved ++ name :: rest →
  (∀ o, o ∈ resolved →
        ∃ n, n ∈ Pipeline.nodes pipeline ∧ o ∈ Node.outputs n) →
  (∀ n, n ∈ Pipeline.nodes pipeline → name ∉ Node.outputs n) →
  kedro_azure_pipeline_fn json self pipeline run_id
  = Py.Raise (Py.ValueError (no_producer_message name)).
Proof.
  intros Houts Hres Hnone. rewrite lowering_closed.
  unfold _gather_pipeline_outputs. rewrite Houts.
  by apply (gather_outputs_refused json self pipeline run_id _
              wired_steps_components).
Qed.

End Lowering.



(** X8. What a successful lowering returns: one entry for each sanitized
    name of a declared pipeline output and no other entry; each entry is an
    output handle whose parameter name is its key and whose owner is the
    step of the first node that produces a declared output with that
    sanitized name. *)
Theorem lowering_result_shape {TS}
    (json : RunnerConfig.KedroAzureRunnerConfig TS → string)
    (self : AzureMLPipelineGenerator TS) pipeline run_id resolved :
  unique_names pipeline →
  topologically_sorted pipeline →
  kedro_azure_pipeline_fn json self pipeline run_id = Py.Ok resolved →
  dom resolved
  = list_to_set (_sanitize_param_name <$> Pipeline.outputs pipeline)
  ∧ ∀ k handle,
      resolved !! k = Some handle →
      Azure.port handle = k
      ∧ ∃ name producer,
          name ∈ Pipeline.outputs pipeline
          ∧ _sanitize_param_name name = k
          ∧ first_producer (Pipeline.nodes pipeline) name producer
          ∧ Azure.owner handle = Node.name producer.
Proof.
  intros Hnames Hsorted Hok.
  assert (∀ o, o ∈ Pipeline.outputs pipeline →
               ∃ n, n ∈ Pipeline.nodes pipeline ∧ o ∈ Node.outputs n) as Hall.
  { destruct (outputs_split (Pipeline.nodes pipeline)
                (Pipeline.outputs pipeline))
      as [Hall | (res & name & rest & Houts & Hres & Hnone)]; [done|].
    rewrite (lowering_refused json self pipeline run_id Hnames Hsorted
               res name rest Houts Hres Hnone) in Hok. done. }
  destruct (lowering_ok json self pipeline run_id Hnames Hsorted Hall)
    as (resolved' & Hok' & Hlook).
  rewrite Hok in Hok'. injection Hok' as <-.
  assert (∀ k handle, resolved !! k = Some handle →
    ∃ name producer,
      name ∈ Pipeline.outputs pipeline ∧ _sanitize_param_name name = k
      ∧ first_producer (Pipeline.nodes pipeline) name producer
      ∧ handle = output_handle producer name) as Hentry.
  { intros k handle. rewrite Hlook.
    destruct (deciding_name _ k) as [name|] eqn:Hdec; [|done].
    destruct (deciding_name_Some _ _ _ Hdec) as [Hin Hk].
    cbn [mbind option_bind]. unfold resolved_handle.
    intros (producer & Hfind%producer_found & ->)%fmap_Some.
    by exists name, producer. }
  split.
  - apply set_eq. intros k.
    rewrite elem_of_dom, elem_of_list_to_set, list_elem_of_fmap. split.
    + intros [handle (name & _ & Hin & Hk & _)%Hentry]. by exists name.
    + intros (name & -> & Hin).
      destruct (deciding_name_elem _ _ Hin) as [deciding Hdec].
      destruct (deciding_name_Some _ _ _ Hdec) as [Hdin _].
      destruct (first_producer_exists (Pipeline.nodes pipeline) deciding
                  (Hall deciding Hdin)) as [producer Hp].
      rewrite Hlook, Hdec. cbn [mbind option_bind]. unfold resolved_handle.
      by rewrite (proj2 (producer_found _ _ _) Hp).
  - intros k handle (name & producer & Hin & Hk & Hp & ->)%Hentry.
    split; [done|]. by exists name, producer.
Qed.

(** An instance of X8 on the pipeline [A -> B]. *)
Lemma lowering_result_shape_witness :
  unique_names Example.pipeline
  ∧ topologically_sorted Example.pipeline
  ∧ ∃ resolved : gmap string Azure.NodeOutput,
      kedro_azure_pipeline_fn Example.json Example.generator Example.pipeline
        "run"
      = Py.Ok resolved
      ∧ dom resolved = list_to_set ["clean"].
Proof.
  split; [exact pipeline_unique_names|]. split; [exact pipeline_sorted|].
  destruct (lowering_ok Example.json Example.generator Example.pipeline "run"
              pipeline_unique_names pipeline_sorted) as (resolved & Hok & _).
  { intros o ->%list_elem_of_singleton. exists Example.node_b.
    split; [right; left | left]. }
  exists resolved. split; [exact Hok|].
  exact (proj1 (lowering_result_shape Example.json Example.generator
                  Example.pipeline "run" resolved pipeline_unique_names
                  pipeline_sorted Hok)).
Defined.

(** ** The command line: [init] *)

Section Cli_init.

Lemma last_char_app (a b : string) :
  b ≠ "" → Cli.last_char (a +:+ b) = Cli.last_char b.
Proof.
  intros Hb. induction a as [|x a IH]; [reflexivity|].
  rewrite string_app_cons. destruct (a +:+ b) as [|y s] eqn:E.
  - destruct a; [by destruct Hb | discriminate E].
  - exact IH.
Qed.

Lemma docker_image_placeholder acr project_name :
  Cli.docker_image acr project_name = "<fill in docker image>" ↔ acr = "".
Proof.
  split; [|by intros ->]. destruct acr as [|c acr]; [done|].
  unfold Cli.docker_image. cbn [Py.truthy].
  intros H%(f_equal Cli.last_char). exfalso. revert H.
  rewrite last_char_app by done.
  rewrite (last_char_app ".azurecr.io/") by (by destruct project_name).
  by rewrite last_char_app.
Qed.

End Cli_init.

(** X9. [init] prints the warning that the docker image must be filled in
    exactly when the [docker_image] it formats the configuration with is the
    placeholder, which is exactly when no registry was given ([acr] is
    empty); with a registry, the image is
    [<acr>.azurecr.io/<project>:latest]. The text it writes is the template
    formatted with these arguments. *)
Theorem init_warns_iff_placeholder
    (config_template : string)
    (format : string → gmap string string → string)
    (temp_dir_name target_path project_name : string)
    (resource_group workspace_name experiment_name cluster_name
       storage_account_name storage_container acr : string) :
  ({| Cli.text :=
        "Please fill in docker image name before running the pipeline";
      Cli.fg := Some "yellow" |}
   ∈ Cli.echoed
       (Cli.init config_template format temp_dir_name target_path
          project_name resource_group workspace_name experiment_name
          cluster_name storage_account_name storage_container acr)
   ↔ Cli.format_arguments resource_group workspace_name experiment_name
       cluster_name storage_account_name storage_container acr project_name
       !! "docker_image"
     = Some "<fill in docker image>")
  ∧ (Cli.format_arguments resource_group workspace_name experiment_name
       cluster_name storage_account_name storage_container acr project_name
       !! "docker_image"
     = Some "<fill in docker image>"
     ↔ acr = "")
  ∧ (acr ≠ "" →
     Cli.format_arguments resource_group workspace_name experiment_name
       cluster_name storage_account_name storage_container acr project_name
       !! "docker_image"
     = Some (acr +:+ ".azurecr.io/" +:+ project_name +:+ ":latest"))
  ∧ Cli.written_text
      (Cli.init config_template format temp_dir_name target_path
         project_name resource_group workspace_name experiment_name
         cluster_name storage_account_name storage_container acr)
    = format config_template
        (Cli.format_arguments resource_group workspace_name experiment_name
           cluster_name storage_account_name storage_container acr
           project_name).
Proof.
  assert (Cli.format_arguments resource_group workspace_name experiment_name
            cluster_name storage_account_name storage_container acr
            project_name !! "docker_image"
          = Some (Cli.docker_image acr project_name)) as Himage
    by reflexivity.
  rewrite !Himage. split_and!.
  - destruct acr as [|c acr].
    + split; [done|]. intros _. cbn. set_solver.
    + split.
      * cbn. intros [[= ]|[[= ]|[]%elem_of_nil]%elem_of_cons]%elem_of_cons.
      * intros H%(inj Some). by apply docker_image_placeholder in H.
  - split; [|by intros ->].
    intros H%(inj Some). by apply docker_image_placeholder in H.
  - intros Hacr. by destruct acr.
  - reflexivity.
Qed.

(** An instance of X9: with the registry [myacr] the image is
    [myacr.azurecr.io/project:latest]. *)
Lemma init_warns_iff_placeholder_witness :
  Cli.format_arguments "rg" "ws" "exp" "cluster" "account" "container"
    "myacr" "project" !! "docker_image"
  = Some "myacr.azurecr.io/project:latest".
Proof.
  apply (proj1 (proj2 (proj2 (init_warns_iff_placeholder ""
           Example_more.format "tmp" "conf/base/azureml.yml" "project"
           "rg" "ws" "exp" "cluster" "account" "container" "myacr")))).
  discriminate.
Defined.
